(** * care-connect-dti: symptom triage and appointment records

    A shallow embedding of

    - the triage service [services/nlpService]: [queryNLPService] and its
      formatting helpers, the parser and fallback chain behind the symptom
      checker (frontend/src/components/Appoints/BookAppointment.js, lines
      739 to 975; the older variant that follows it, lines 976 to 1188,
      returns the report strings alone);
    - [backend/controllers/symptomController.js]: [checkSymptoms];
    - the Mongoose schema [appointmentSchema] of the model 'Appointment',
      with its urgency validator (same file, lines 1189 to 1237);
    - the appointment state machine and its pre-save hook given in
      HM_INTERVIEW_GUIDE.md (lines 1534 to 1552);

    followed by the properties of the specification that concern them.

    Conventions.  JavaScript values are an inductive type [value]; a
    computation that may throw returns a [completion].  Strings are byte
    strings (UTF-8); every separator the code searches for is ASCII, so
    searching bytes and searching UTF-16 code units agree.  A JavaScript
    number is either NaN, an infinity, or a rational; the code never
    computes with numbers, it only tests, compares and prints them.  What
    is thrown is an [Error] object or one shaped like it.  Built-in
    conversions of the JavaScript runtime that the repository only calls
    ([JSON.parse], Number-to-String, String-to-Number, the members of
    [Object.prototype]) are the fields of the class [Runtime]; general
    theorems hold for every runtime, and a reference instance makes every
    definition executable.  Asynchrony is not represented: each [await] is
    the value or the exception it settles to. *)

From Stdlib Require Import String Ascii List ZArith QArith Qabs Bool Lia DecimalString.
From stdpp Require Import gmap.
Import ListNotations.
Local Open Scope string_scope.

(** ** JavaScript values *)

Inductive number : Type :=
| NaN
| Fin (q : Q)
| Inf (negative : bool).

#[warnings="-register-all"]
Inductive value : Type :=
| VUndefined
| VNull
| VBool (b : bool)
| VNum (n : number)
| VStr (s : string)
| VArr (elems : list value)
| VObj (props : list (string * value)).

(** What a [throw] carries.  [ErrorObject m] is an [Error]-like object whose
    [message] property is [m] ([None]: no such property). *)
Inductive exn : Type :=
| TypeError (msg : string)
| SyntaxError (msg : string)
| ErrorObject (message : option string).

Inductive completion (A : Type) : Type :=
| Normal (a : A)
| Throw (e : exn).
Arguments Normal {A} a.
Arguments Throw {A} e.

Definition bind {A B : Type} (c : completion A) (k : A -> completion B) : completion B :=
  match c with
  | Normal a => k a
  | Throw e => Throw e
  end.

(** [try { body } catch (e) { handler e }] *)
Definition try_catch {A : Type} (body : completion A) (handler : exn -> completion A) : completion A :=
  match body with
  | Normal a => Normal a
  | Throw e => handler e
  end.

Declare Scope js_scope.
Delimit Scope js_scope with js.
Notation "'let*' x ':=' c 'in' k" := (bind c (fun x => k))
  (at level 10, x name, c at level 100, k at level 200) : js_scope.

(** A computation run on the elements of a list in order, as a loop or
    an array method runs its callback: the first one that throws ends
    it. *)
Section Traverse.
Context {A B : Type}.
Variable f : A -> completion B.
Local Open Scope js_scope.

Fixpoint traverse (l : list A) : completion (list B) :=
  match l with
  | [] => Normal []
  | x :: rest =>
      let* y := f x in
      let* ys := traverse rest in
      Normal (y :: ys)
  end.
End Traverse.

(** [error.message] of a caught exception. *)
Definition exn_message (e : exn) : option string :=
  match e with
  | TypeError m => Some m
  | SyntaxError m => Some m
  | ErrorObject m => m
  end.

(** ** The runtime's built-in conversions *)

Class Runtime : Type := {
  (** [JSON.parse(text)]; throws a [SyntaxError] on malformed text. *)
  JSON_parse : string -> completion value;
  (** [Number::toString] on a finite number. *)
  Number_toString : Q -> string;
  (** [StringToNumber], as used by [ToNumber] on a string. *)
  StringToNumber : string -> number;
  (** The string a template literal prints for the member of
      [Object.prototype] named by the key, when there is one
      ([constructor], [toString], [valueOf], ...). *)
  ObjectPrototype_member : string -> option string
}.

Definition nl : string := String "010"%char EmptyString.

(** Double quote, written by its code. *)
Definition dq : ascii := "034"%char.
Definition quoted (s : string) : string := String dq (s ++ String dq EmptyString).

Definition is_zero (q : Q) : bool := Qeq_bool q 0.

(** [ToBoolean] *)
Definition truthy (v : value) : bool :=
  match v with
  | VUndefined | VNull => false
  | VBool b => b
  | VNum NaN => false
  | VNum (Fin q) => negb (is_zero q)
  | VNum (Inf _) => true
  | VStr s => negb (s =? "")
  | VArr _ | VObj _ => true
  end.

(** [a || b] *)
Definition js_or (a b : value) : value := if truthy a then a else b.

(** Equality of numbers, as [===] decides it. *)
Definition number_eqb (a b : number) : bool :=
  match a, b with
  | Fin x, Fin y => Qeq_bool x y
  | Inf s, Inf t => Bool.eqb s t
  | _, _ => false
  end.

(** First binding of a key in a property list. *)
Fixpoint own_property (key : string) (props : list (string * value)) : option value :=
  match props with
  | [] => None
  | (k, v) :: rest => if k =? key then Some v else own_property key rest
  end.

(** [v.name] for the property names this program reads
    ([severity_score], [urgency], [formattedMessage], ...): none of them
    is a built-in member of a prototype, so on anything but a plain object
    the read gives [undefined], and on [undefined] or [null] it throws. *)
Definition Get (v : value) (name : string) : completion value :=
  match v with
  | VUndefined =>
      Throw (TypeError ("Cannot read properties of undefined (reading '" ++ name ++ "')"))
  | VNull =>
      Throw (TypeError ("Cannot read properties of null (reading '" ++ name ++ "')"))
  | VObj props =>
      match own_property name props with
      | Some x => Normal x
      | None => Normal VUndefined
      end
  | _ => Normal VUndefined
  end.

Section Conversions.
Context {rt : Runtime}.
Local Open Scope js_scope.

Definition number_toString (n : number) : string :=
  match n with
  | NaN => "NaN"
  | Fin q => Number_toString q
  | Inf false => "Infinity"
  | Inf true => "-Infinity"
  end.

(** [ToString], as a template literal [`${v}`] and a computed property
    key apply it.

    An object is converted by [OrdinaryToPrimitive], which calls its
    [toString] and its [valueOf].  The values here are parsed ones, whose
    properties are never functions: an object without a property named
    [toString] inherits the one of [Object.prototype] and prints as
    [[object Object]]; an object with such a property has no callable
    [toString], the [valueOf] it has or inherits gives no primitive, and
    the conversion throws a [TypeError].

    An array prints through [join]: its elements in order, separated by
    commas, [null] and [undefined] elements as nothing, every other
    element by its own conversion, which may throw. *)
Fixpoint toString (v : value) : completion string :=
  match v with
  | VUndefined => Normal "undefined"
  | VNull => Normal "null"
  | VBool true => Normal "true"
  | VBool false => Normal "false"
  | VNum n => Normal (number_toString n)
  | VStr s => Normal s
  | VArr elems =>
      let* parts :=
        traverse (fun x => match x with
                           | VUndefined | VNull => Normal ""
                           | _ => toString x
                           end) elems in
      Normal (String.concat "," parts)
  | VObj props =>
      match own_property "toString" props with
      | Some _ => Throw (TypeError "Cannot convert object to primitive value")
      | None => Normal "[object Object]"
      end
  end.

(** [ToNumber].  Arrays and objects go through [OrdinaryToPrimitive] with
    the hint [number]: the inherited [valueOf] gives the object back, a
    property named [valueOf] is not callable, and either way the result is
    that of [toString]: the string form, or the [TypeError]. *)
Definition toNumber (v : value) : completion number :=
  match v with
  | VUndefined => Normal NaN
  | VNull => Normal (Fin 0)
  | VBool true => Normal (Fin 1)
  | VBool false => Normal (Fin 0)
  | VNum n => Normal n
  | VStr s => Normal (StringToNumber s)
  | VArr _ | VObj _ =>
      let* s := toString v in
      Normal (StringToNumber s)
  end.

Definition number_leb (a b : number) : bool :=
  match a, b with
  | NaN, _ | _, NaN => false
  | Fin x, Fin y => Qle_bool x y
  | Inf true, _ => true
  | _, Inf false => true
  | Inf false, _ => false
  | _, Inf true => false
  end.

Definition number_ltb (a b : number) : bool :=
  match a, b with
  | NaN, _ | _, NaN => false
  | Fin x, Fin y => negb (Qle_bool y x)
  | Inf s, Inf t => s && negb t
  | Inf true, Fin _ => true
  | Fin _, Inf false => true
  | Inf false, Fin _ => false
  | Fin _, Inf true => false
  end.

(** [v <= k] and [v > k] against a numeric literal [k]. *)
Definition js_le (v : value) (k : Z) : completion bool :=
  let* n := toNumber v in
  Normal (number_leb n (Fin (inject_Z k))).

Definition js_gt (v : value) (k : Z) : completion bool :=
  let* n := toNumber v in
  Normal (number_ltb (Fin (inject_Z k)) n).
End Conversions.

(** [s.includes(needle)] *)
Fixpoint includes (s needle : string) : bool :=
  String.prefix needle s ||
  match s with
  | EmptyString => false
  | String _ rest => includes rest needle
  end.

(** * The triage service: services/nlpService *)

Module NlpService.

(** ** [text.match(/\{[\s\S]*\}/)]

    The leftmost match starts at the first opening brace; the star is
    greedy, so the match runs to the last closing brace after it.  There is
    a match exactly when some closing brace follows the first opening one. *)

Fixpoint from_first (c : ascii) (s : string) : option string :=
  match s with
  | EmptyString => None
  | String a rest => if (a =? c)%char then Some s else from_first c rest
  end.

Fixpoint upto_last (c : ascii) (s : string) : option string :=
  match s with
  | EmptyString => None
  | String a rest =>
      match upto_last c rest with
      | Some p => Some (String a p)
      | None => if (a =? c)%char then Some (String a EmptyString) else None
      end
  end.

(** [jsonMatch[0]], or [None] when [match] returns [null]. *)
Definition jsonMatch (text : string) : option string :=
  match from_first "{" text with
  | None => None
  | Some rest => upto_last "}" rest
  end.

(** What the awaited calls [model.generateContent(prompt)],
    [result.response] and [response.text()] come to: the text of the
    completion, or the exception one of them threw. *)
Inductive ServiceOutcome : Type :=
| Responded (text : string)
| Failed (error : exn).

Section WithRuntime.
Context {rt : Runtime}.
Local Open Scope js_scope.

(** Get emoji based on severity score *)
Definition getSeverityEmoji (score : value) : completion string :=
  let* low := js_le score 2 in
  if low then Normal "🟢"
  else
    let* mild := js_le score 4 in
    if mild then Normal "🟡"
    else
      let* moderate := js_le score 6 in
      if moderate then Normal "🟠"
      else
        let* high := js_le score 8 in
        if high then Normal "🔴"
        else Normal "🆘".

Definition indicators : list (string * string) :=
  [ ("Routine", "🔵"); ("Same Day", "🟡"); ("Urgent", "🟠"); ("Emergency", "🔴") ].

Fixpoint assoc (key : string) (table : list (string * string)) : option string :=
  match table with
  | [] => None
  | (k, v) :: rest => if k =? key then Some v else assoc key rest
  end.

(** Get urgency indicator: [indicators[urgency] || '🔵'], as the text the
    report prints for it.  A key that names a member of
    [Object.prototype] finds that member, which is truthy. *)
Definition getUrgencyIndicator (urgency : value) : completion string :=
  let* key := toString urgency in
  match assoc key indicators with
  | Some i => Normal i
  | None =>
      match ObjectPrototype_member key with
      | Some m => Normal m
      | None => Normal "🔵"
      end
  end.

(** [xs.map(x => `${prefix}${x}`)]: only an array has [map], and [map]
    applies the callback to the elements in order. *)
Definition map_lines (prefix : string) (xs : value) : completion (list string) :=
  match xs with
  | VArr elems => traverse (fun x => let* s := toString x in Normal (prefix ++ s)) elems
  | VUndefined => Throw (TypeError "Cannot read properties of undefined (reading 'map')")
  | VNull => Throw (TypeError "Cannot read properties of null (reading 'map')")
  | _ => Throw (TypeError "map is not a function")
  end.

Definition rule : string := "═══════════════════════════════════════".

Definition next_steps : string :=
  String.concat nl
    [ rule;
      "🔵 NEXT STEPS";
      "   Book an appointment with a healthcare provider based on the urgency level.";
      "   Click the 'Book Appointment' button below to proceed.";
      rule ].

(** [.filter(Boolean)] on an array of strings drops the empty ones. *)
Definition filter_Boolean (lines : list string) : list string :=
  List.filter (fun s => negb (s =? "")) lines.

(** Format the structured JSON response into a nice presentation.

    The array literal is evaluated element by element, in order, after the
    two helpers; every template literal converts the value it embeds, and
    the first conversion that throws ends the function. *)
Definition formatSymptomAnalysis (data : value) : completion string :=
  let* severity_score := Get data "severity_score" in
  let* severityEmoji := getSeverityEmoji severity_score in
  let* urgency := Get data "urgency" in
  let* urgencyColor := getUrgencyIndicator urgency in
  let* score_text := toString severity_score in
  let* urgency_text := toString urgency in
  let* primary_assessment := Get data "primary_assessment" in
  let* assessment_text := toString primary_assessment in
  let* first_aid_tips := Get data "first_aid_tips" in
  let* tips := map_lines "   ✓ " first_aid_tips in
  let* warning_signs := Get data "warning_signs" in
  let* signs := map_lines "   🚨 " warning_signs in
  let* when_to_seek_help := Get data "when_to_seek_help" in
  let* help_text := toString when_to_seek_help in
  let* recommended_action := Get data "recommended_action" in
  let* action_text := toString recommended_action in
  let* more_than_one := js_gt severity_score 1 in
  let* disclaimer := Get data "disclaimer" in
  let* disclaimer_text := toString disclaimer in
  let report :=
    List.app
      [ "🏥 SYMPTOM ANALYSIS REPORT";
        rule;
        "";
        "📊 SEVERITY ASSESSMENT";
        "   " ++ severityEmoji ++ " Score: " ++ score_text ++ "/10";
        "   " ++ urgencyColor ++ " Urgency: " ++ urgency_text;
        "";
        "🔍 PRIMARY ASSESSMENT";
        "   " ++ assessment_text;
        "";
        "🚑 FIRST AID TIPS" ]
   (List.app tips
   (List.app
      [ "";
        "⚠️ WARNING SIGNS TO WATCH" ]
   (List.app signs
      [ "";
        "👨‍⚕️ WHEN TO SEEK MEDICAL HELP";
        "   " ++ help_text;
        "";
        "🏥 RECOMMENDED ACTION";
        "   " ++ action_text;
        "";
        (if more_than_one : bool then next_steps else "");
        "";
        rule;
        "⚖️ MEDICAL DISCLAIMER";
        "   " ++ disclaimer_text;
        rule ]))) in
  Normal (String.concat nl (filter_Boolean report)).

(** Fallback formatting for non-JSON responses *)
Definition formatFallbackResponse (query rawText : string) : string :=
  String.concat nl
    [ "🏥 SYMPTOM ANALYSIS REPORT";
      rule;
      "";
      "📝 SYMPTOMS ANALYZED: " ++ query;
      "";
      "📊 ASSESSMENT";
      "   " ++ rawText;
      "";
      rule;
      "⚖️ MEDICAL DISCLAIMER";
      "   This is AI-generated health information for educational purposes only.";
      "   Always consult healthcare professionals for medical advice, diagnosis, or treatment.";
      rule ].

(** Error response formatting *)
Definition formatErrorResponse (query errorMessage : string) : string :=
  String.concat nl
    [ "🏥 SYMPTOM ANALYSIS REPORT";
      rule;
      "";
      "📝 SYMPTOMS ANALYZED: " ++ query;
      "";
      "📊 SEVERITY ASSESSMENT";
      "   🟡 Score: 5/10 | Level: Moderate";
      "   🟡 Urgency: Same Day";
      "";
      "🔍 GENERAL ASSESSMENT";
      "   Based on your symptoms, this appears to be a health concern that requires attention and monitoring.";
      "";
      "⚡ IMMEDIATE ACTIONS";
      "   ✓ Monitor your symptoms closely";
      "   ✓ Rest and stay hydrated";
      "   ✓ Avoid strenuous activities";
      "";
      "🏠 SELF-CARE RECOMMENDATIONS";
      "   • Get adequate rest and sleep";
      "   • Stay well hydrated with water";
      "   • Maintain a comfortable environment";
      "";
      "⚠️ WARNING SIGNS TO WATCH";
      "   🚨 Symptoms getting worse rapidly";
      "   🚨 Severe pain or discomfort";
      "   🚨 Difficulty breathing or chest pain";
      "";
      "👨‍⚕️ WHEN TO SEEK MEDICAL HELP";
      "   If symptoms persist for more than 2-3 days, worsen, or if you develop any warning signs, consult a healthcare professional immediately.";
      "";
      rule;
      "⚖️ MEDICAL DISCLAIMER";
      "   This is general health information only. For accurate medical advice, please consult with a qualified healthcare provider.";
      "";
      "   Note: " ++ errorMessage ++ ". Please try again later or consult with a healthcare professional directly.";
      rule ].

(** The object literal every branch of [queryNLPService] returns. *)
Definition result (formattedMessage : string) (severityScore urgency recommendedAction : value) : value :=
  VObj [ ("formattedMessage", VStr formattedMessage);
         ("severityScore", severityScore);
         ("urgency", urgency);
         ("recommendedAction", recommendedAction) ].

Definition fallback_result (query text : string) : value :=
  result (formatFallbackResponse query text)
         (VNum (Fin 5)) (VStr "Same Day") (VStr "Book an appointment soon").

(** [error.message && error.message.includes(needle)] *)
Definition message_includes (error : exn) (needle : string) : bool :=
  match exn_message error with
  | Some m => negb (m =? "") && includes m needle
  | None => false
  end.

(** The [errorMessage] the outer [catch] settles on. *)
Definition errorMessage_of (error : exn) : string :=
  if message_includes error "quota" then "AI service quota exceeded. Please try again later"
  else if message_includes error "404" then "AI model temporarily unavailable"
  else if message_includes error "401" then "AI service authentication failed"
  else "AI service temporarily unavailable".

Definition error_result (query : string) (error : exn) : value :=
  result (formatErrorResponse query (errorMessage_of error))
         (VNum (Fin 5)) (VStr "Same Day")
         (VStr "Book an appointment soon to discuss your symptoms").

(** The inner [try] block: find the JSON span, parse it, format it. *)
Definition parse_response (query text : string) : completion value :=
  match jsonMatch text with
  | Some span =>
      let* jsonData := JSON_parse span in
      let* formattedMessage := formatSymptomAnalysis jsonData in
      let* severity_score := Get jsonData "severity_score" in
      let* urgency := Get jsonData "urgency" in
      let* recommended_action := Get jsonData "recommended_action" in
      Normal (result formattedMessage
                     (js_or severity_score (VNum (Fin 0)))
                     (js_or urgency (VStr "Routine"))
                     (js_or recommended_action (VStr "")))
  | None => Normal (fallback_result query text)
  end.

Definition queryNLPService (query : string) (service : ServiceOutcome) : completion value :=
  try_catch
    (let* text := match service with
                  | Responded text => Normal text
                  | Failed error => Throw error
                  end in
     try_catch (parse_response query text)
               (fun parseError => Normal (fallback_result query text)))
    (fun error => Normal (error_result query error)).

End WithRuntime.

End NlpService.

(** * A reference runtime

    An executable instance of [Runtime], used to run the definitions on
    concrete inputs: a JSON parser after ECMA-404 (the grammar [JSON.parse]
    accepts), decimal printing and reading of numbers, and the members of
    [Object.prototype].  It stands for the JavaScript runtime on the
    sample inputs, and is simpler than it elsewhere: a number literal is
    read as its exact value, or as an infinity or zero beyond the range of
    a double, and rounding to 53 bits within the range is not represented;
    a number is printed in positional notation, where JavaScript turns to
    the exponent notation from 1e21 on and below 1e-6; a string is read as
    a number when it is a decimal literal between spaces, tabs and line
    ends, and not when it is a hexadecimal, octal or binary one.  No
    general theorem depends on this instance. *)

Module Reference.

Definition is_ws (c : ascii) : bool :=
  (c =? " ")%char || (c =? "009")%char || (c =? "010")%char || (c =? "013")%char.

Fixpoint skip_ws (s : string) : string :=
  match s with
  | String c rest => if is_ws c then skip_ws rest else s
  | EmptyString => s
  end.

Definition digit (c : ascii) : option Z :=
  let n := N_of_ascii c in
  if ((48 <=? n) && (n <=? 57))%N then Some (Z.of_N (n - 48)) else None.

(** Reads a run of digits onto [acc]; [count] counts them. *)
Fixpoint digits (acc count : Z) (s : string) : Z * Z * string :=
  match s with
  | String c rest =>
      match digit c with
      | Some d => digits (10 * acc + d) (count + 1) rest
      | None => (acc, count, s)
      end
  | EmptyString => (acc, count, s)
  end.

(** [m * 10^e] *)
Definition scale (m e : Z) : Q :=
  if (0 <=? e)%Z then inject_Z (m * 10 ^ e) else Qred (m # Z.to_pos (10 ^ (- e))).

(** The range of a double: a literal at or above [2^1024 - 2^970] in
    magnitude reads as an infinity, one at or below [2^-1075] as zero. *)
Definition in_double_range (negative : bool) (q : Q) : number :=
  if Qle_bool (inject_Z (2 ^ 1024 - 2 ^ 970)) (Qabs q) then Inf negative
  else if Qle_bool (Qabs q) (1 # Z.to_pos (2 ^ 1075)) then Fin 0
  else Fin q.

Definition starts_with (c : ascii) (s : string) : option string :=
  match s with
  | String a rest => if (a =? c)%char then Some rest else None
  | EmptyString => None
  end.

Fixpoint strip_prefix (p s : string) : option string :=
  match p, s with
  | EmptyString, _ => Some s
  | String a p', String b s' => if (a =? b)%char then strip_prefix p' s' else None
  | String _ _, EmptyString => None
  end.

(** Optional fraction after the integer part [int]: the mantissa with the
    fraction digits appended and their count. *)
Definition fraction (int : Z) (s : string) (needs_digit : bool) : option (Z * Z * string) :=
  match starts_with "." s with
  | Some rest =>
      let '(m, k, rest') := digits int 0 rest in
      if needs_digit && (k =? 0)%Z then None else Some (m, k, rest')
  | None => Some (int, 0%Z, s)
  end.

Definition exponent (s : string) : option (Z * string) :=
  let after_e :=
    match starts_with "e" s with
    | Some r => Some r
    | None => starts_with "E" s
    end in
  match after_e with
  | None => Some (0%Z, s)
  | Some r =>
      let '(negative, r1) :=
        match starts_with "-" r with
        | Some r' => (true, r')
        | None => match starts_with "+" r with
                  | Some r' => (false, r')
                  | None => (false, r)
                  end
        end in
      let '(e, k, r2) := digits 0 0 r1 in
      if (k =? 0)%Z then None else Some (if negative then (- e)%Z else e, r2)
  end.

(** A JSON number: an optional minus sign; a zero, or a nonzero digit and
    further digits; optionally a point and one digit or more; optionally an
    exponent: e or E, an optional sign, one digit or more. *)
Definition json_number (s : string) : option (number * string) :=
  let '(negative, s1) :=
    match starts_with "-" s with
    | Some r => (true, r)
    | None => (false, s)
    end in
  match s1 with
  | EmptyString => None
  | String c r =>
      match digit c with
      | None => None
      | Some d =>
          let '(int, s2) :=
            if (d =? 0)%Z then (0%Z, r)
            else let '(a, _, r') := digits d 1 r in (a, r') in
          match fraction int s2 true with
          | None => None
          | Some (m, k, s3) =>
              match exponent s3 with
              | None => None
              | Some (e, s4) =>
                  Some (in_double_range negative
                          (scale (if negative then (- m)%Z else m) (e - k)), s4)
              end
          end
      end
  end.

Definition hex (c : ascii) : option N :=
  let n := N_of_ascii c in
  if ((48 <=? n) && (n <=? 57))%N then Some (n - 48)%N
  else if ((65 <=? n) && (n <=? 70))%N then Some (n - 55)%N
  else if ((97 <=? n) && (n <=? 102))%N then Some (n - 87)%N
  else None.

(** A character of a string literal: a byte of the text, or the UTF-16
    code unit of a [\uXXXX] escape. *)
Inductive item : Type :=
| Byte (c : ascii)
| Unit16 (u : N).

Definition backslash : ascii := "092"%char.

Definition escape (e : ascii) : option ascii :=
  if (e =? dq)%char then Some dq
  else if (e =? backslash)%char then Some backslash
  else if (e =? "/")%char then Some "/"%char
  else if (e =? "b")%char then Some "008"%char
  else if (e =? "f")%char then Some "012"%char
  else if (e =? "n")%char then Some "010"%char
  else if (e =? "r")%char then Some "013"%char
  else if (e =? "t")%char then Some "009"%char
  else None.

(** The text after an opening quote, up to the closing one. *)
Fixpoint string_body (s : string) : option (list item * string) :=
  match s with
  | EmptyString => None
  | String c rest =>
      if (c =? dq)%char then Some ([], rest)
      else if (c =? backslash)%char then
        match rest with
        | EmptyString => None
        | String e rest1 =>
            if (e =? "u")%char then
              match rest1 with
              | String h1 (String h2 (String h3 (String h4 rest2))) =>
                  match hex h1, hex h2, hex h3, hex h4 with
                  | Some a, Some b, Some c', Some d =>
                      match string_body rest2 with
                      | Some (items, r) =>
                          Some (Unit16 (((a * 16 + b) * 16 + c') * 16 + d)%N :: items, r)
                      | None => None
                      end
                  | _, _, _, _ => None
                  end
              | _ => None
              end
            else
              match escape e with
              | Some b =>
                  match string_body rest1 with
                  | Some (items, r) => Some (Byte b :: items, r)
                  | None => None
                  end
              | None => None
              end
        end
      else if (N_of_ascii c <? 32)%N then None
      else
        match string_body rest with
        | Some (items, r) => Some (Byte c :: items, r)
        | None => None
        end
  end.

Definition byte_of (n : N) : ascii := ascii_of_N n.

Definition utf8 (cp : N) : string :=
  (if cp <? 128 then String (byte_of cp) EmptyString
   else if cp <? 2048 then
     String (byte_of (192 + cp / 64)) (String (byte_of (128 + cp mod 64)) EmptyString)
   else if cp <? 65536 then
     String (byte_of (224 + cp / 4096))
       (String (byte_of (128 + (cp / 64) mod 64))
          (String (byte_of (128 + cp mod 64)) EmptyString))
   else
     String (byte_of (240 + cp / 262144))
       (String (byte_of (128 + (cp / 4096) mod 64))
          (String (byte_of (128 + (cp / 64) mod 64))
             (String (byte_of (128 + cp mod 64)) EmptyString))))%N.

Definition high_surrogate (u : N) : bool := ((55296 <=? u) && (u <? 56320))%N.
Definition low_surrogate (u : N) : bool := ((56320 <=? u) && (u <? 57344))%N.

Fixpoint encode (items : list item) : string :=
  match items with
  | [] => EmptyString
  | Byte c :: r => String c (encode r)
  | Unit16 u :: r =>
      match r with
      | Unit16 lo :: r' =>
          if high_surrogate u && low_surrogate lo
          then utf8 (65536 + (u - 55296) * 1024 + (lo - 56320))%N ++ encode r'
          else utf8 u ++ encode r
      | _ => utf8 u ++ encode r
      end
  end.

(** A later member of an object literal overrides an earlier one of the
    same name. *)
Fixpoint set_property (k : string) (v : value) (props : list (string * value)) : list (string * value) :=
  match props with
  | [] => [(k, v)]
  | (k', v') :: rest =>
      if k' =? k then (k, v) :: rest else (k', v') :: set_property k v rest
  end.

Fixpoint parse_value (fuel : nat) (s : string) : option (value * string) :=
  match fuel with
  | O => None
  | S fuel' =>
      match skip_ws s with
      | EmptyString => None
      | String c rest as s' =>
          if (c =? "{")%char then
            match starts_with "}" (skip_ws rest) with
            | Some r => Some (VObj [], r)
            | None => parse_members fuel' rest []
            end
          else if (c =? "[")%char then
            match starts_with "]" (skip_ws rest) with
            | Some r => Some (VArr [], r)
            | None => parse_elements fuel' rest []
            end
          else if (c =? dq)%char then
            match string_body rest with
            | Some (items, r) => Some (VStr (encode items), r)
            | None => None
            end
          else
            match strip_prefix "true" s', strip_prefix "false" s', strip_prefix "null" s' with
            | Some r, _, _ => Some (VBool true, r)
            | _, Some r, _ => Some (VBool false, r)
            | _, _, Some r => Some (VNull, r)
            | None, None, None =>
                match json_number s' with
                | Some (n, r) => Some (VNum n, r)
                | None => None
                end
            end
      end
  end
with parse_elements (fuel : nat) (s : string) (acc : list value) : option (value * string) :=
  match fuel with
  | O => None
  | S fuel' =>
      match parse_value fuel' s with
      | None => None
      | Some (v, r) =>
          match skip_ws r with
          | EmptyString => None
          | String c r' =>
              if (c =? ",")%char then parse_elements fuel' r' (List.app acc [v])
              else if (c =? "]")%char then Some (VArr (List.app acc [v]), r')
              else None
          end
      end
  end
with parse_members (fuel : nat) (s : string) (acc : list (string * value)) : option (value * string) :=
  match fuel with
  | O => None
  | S fuel' =>
      match starts_with dq (skip_ws s) with
      | None => None
      | Some r =>
          match string_body r with
          | None => None
          | Some (items, r1) =>
              match starts_with ":" (skip_ws r1) with
              | None => None
              | Some r2 =>
                  match parse_value fuel' r2 with
                  | None => None
                  | Some (v, r3) =>
                      let props := set_property (encode items) v acc in
                      match skip_ws r3 with
                      | EmptyString => None
                      | String c r4 =>
                          if (c =? ",")%char then parse_members fuel' r4 props
                          else if (c =? "}")%char then Some (VObj props, r4)
                          else None
                      end
                  end
              end
          end
      end
  end.

(** [JSON.parse]: one value, then nothing but white space. *)
Definition parse (text : string) : completion value :=
  match parse_value (2 * String.length text + 2) text with
  | Some (v, rest) =>
      match skip_ws rest with
      | EmptyString => Normal v
      | String _ _ => Throw (SyntaxError "Unexpected non-whitespace character after JSON")
      end
  | None => Throw (SyntaxError "Unexpected token in JSON")
  end.

(** Decimal digits of the fraction [r / d], at most [fuel] of them. *)
Fixpoint fraction_digits (fuel : nat) (r d : Z) : string :=
  match fuel with
  | O => EmptyString
  | S fuel' =>
      if (r =? 0)%Z then EmptyString
      else
        DecimalString.NilZero.string_of_int (Z.to_int (10 * r / d))
        ++ fraction_digits fuel' ((10 * r) mod d)%Z d
  end.

(** Prints an integer in decimal, and any other number by its decimal
    expansion (cut after 20 digits). *)
Definition print_number (q : Q) : string :=
  let q' := Qred q in
  let n := Qnum q' in
  let d := Zpos (Qden q') in
  if (d =? 1)%Z then DecimalString.NilZero.string_of_int (Z.to_int n)
  else
    (if (n <? 0)%Z then "-" else "")
    ++ DecimalString.NilZero.string_of_int (Z.to_int (Z.abs n / d))
    ++ "." ++ fraction_digits 20 (Z.abs n mod d) d.

Fixpoint trim_right (s : string) : string :=
  match s with
  | EmptyString => EmptyString
  | String c rest =>
      match trim_right rest with
      | EmptyString => if is_ws c then EmptyString else String c EmptyString
      | r => String c r
      end
  end.

(** Reads a decimal literal, [Infinity] with a sign, or the empty string
    (zero); anything else is NaN. *)
Definition read_number (s : string) : number :=
  let t := trim_right (skip_ws s) in
  if t =? "" then Fin 0
  else
    let '(negative, t1) :=
      match starts_with "-" t with
      | Some r => (true, r)
      | None => match starts_with "+" t with
                | Some r => (false, r)
                | None => (false, t)
                end
      end in
    if t1 =? "Infinity" then Inf negative
    else
      let '(int, a, t2) := digits 0 0 t1 in
      match fraction int t2 false with
      | None => NaN
      | Some (m, k, t3) =>
          if ((a + k) =? 0)%Z then NaN
          else
            match exponent t3 with
            | Some (e, EmptyString) =>
                in_double_range negative (scale (if negative then (- m)%Z else m) (e - k))
            | _ => NaN
            end
      end.

Definition prototype_functions : list string :=
  [ "constructor"; "hasOwnProperty"; "isPrototypeOf"; "propertyIsEnumerable";
    "toLocaleString"; "toString"; "valueOf";
    "__defineGetter__"; "__defineSetter__"; "__lookupGetter__"; "__lookupSetter__" ].

Definition prototype_member (key : string) : option string :=
  if key =? "__proto__" then Some "[object Object]"
  else if key =? "constructor" then Some "function Object() { [native code] }"
  else if existsb (String.eqb key) prototype_functions
  then Some ("function " ++ key ++ "() { [native code] }")
  else None.

#[export] Instance runtime : Runtime := {
  JSON_parse := parse;
  Number_toString := print_number;
  StringToNumber := read_number;
  ObjectPrototype_member := prototype_member
}.

End Reference.

(** * backend/controllers/symptomController.js *)

Module SymptomController.

Record Response : Type := {
  status_code : Z;
  body : value
}.

Section WithRuntime.
Context {rt : Runtime}.
Local Open Scope js_scope.

(** The body of [checkSymptoms] after [await queryNLPService(symptoms)]
    has settled to [outcome]: the [try] block builds the response from
    the result, the [catch] block answers 500 with the error's message. *)
Definition respond (outcome : completion value) : Response :=
  match
    (let* result := outcome in
     let* formattedMessage := Get result "formattedMessage" in
     let* message := Get result "message" in
     let* severityScore := Get result "severityScore" in
     let* urgency := Get result "urgency" in
     let* recommendedAction := Get result "recommendedAction" in
     Normal (VObj [ ("message", js_or (js_or formattedMessage message) result);
                    ("severityScore", js_or severityScore (VNum (Fin 0)));
                    ("urgency", js_or urgency (VStr "Routine"));
                    ("recommendedAction", js_or recommendedAction (VStr "")) ]))
  with
  | Normal response => {| status_code := 200; body := response |}
  | Throw error =>
      {| status_code := 500;
         body := VObj [ ("error", match exn_message error with
                                  | Some m => VStr m
                                  | None => VUndefined
                                  end) ] |}
  end.

Definition checkSymptoms (symptoms : string) (service : NlpService.ServiceOutcome) : Response :=
  respond (NlpService.queryNLPService symptoms service).
End WithRuntime.

End SymptomController.

(** * The appointment schema: [appointmentSchema]

    The schema declares, per path, a type, a default and validators.  Its
    meaning is Mongoose's: a new document takes the default of every path
    left undefined; [save] runs the validators of every path on the
    document as it would be stored and persists it only when none fails;
    on a path that is undefined only [required] is checked, and the first
    validator to fail gives the path's error.  Values are taken as already
    cast to the declared types. *)

Module AppointmentModel.

(** A document of the collection; [None] is a path left undefined. *)
Record Appointment : Type := {
  doctorMedicalId : option string;
  patientMedicalId : option string;
  doctorName : option string;
  patientName : option string;
  date : option Z;
  time : option string;
  symptoms : option string;
  urgencyLevel : option string;
  urgencyScore : option Q;
  fromSymptomChecker : option bool;
  status : option string
}.

Definition urgencyLevel_enum : list string := [ "Routine"; "Non-Urgent"; "Urgent"; "Emergency" ].
Definition urgencyLevel_default : string := "Routine".
Definition urgencyScore_min : Q := 0.
Definition urgencyScore_max : Q := 10.
Definition urgencyScore_default : Q := 0.
Definition fromSymptomChecker_default : bool := false.
Definition status_enum : list string := [ "pending"; "confirmed"; "cancelled"; "completed" ].
Definition status_default : string := "confirmed".

(** [this.fromSymptomChecker], as a condition. *)
Definition this_fromSymptomChecker (this : Appointment) : bool :=
  match fromSymptomChecker this with
  | Some b => b
  | None => false
  end.

(** The [validator] function of [urgencyLevel]:
    if not coming from SymptomChecker, only allow 'Routine'. *)
Definition urgencyLevel_validator (this : Appointment) (value : string) : bool :=
  if negb (this_fromSymptomChecker this) && negb (value =? "Routine") then false else true.

Definition urgencyLevel_message : string :=
  "Urgency level can only be set via Symptom Checker assessment".

Inductive ValidatorError : Type :=
| Required (path : string)
| Enum (path value : string)
| Min (path : string)
| Max (path : string)
| Custom (path message : string).

Definition error_path (e : ValidatorError) : string :=
  match e with
  | Required p | Enum p _ | Min p | Max p | Custom p _ => p
  end.

Definition member (x : string) (l : list string) : bool := existsb (String.eqb x) l.

(** [required: true] on a String path: a non-empty string. *)
Definition required_string (path : string) (v : option string) : list ValidatorError :=
  match v with
  | Some s => if s =? "" then [Required path] else []
  | None => [Required path]
  end.

(** [required: true] on a Date path. *)
Definition required_date (path : string) (v : option Z) : list ValidatorError :=
  match v with
  | Some _ => []
  | None => [Required path]
  end.

(** [urgencyLevel]: the enum, then the custom validator. *)
Definition validate_urgencyLevel (this : Appointment) : list ValidatorError :=
  match urgencyLevel this with
  | None => []
  | Some value =>
      if negb (member value urgencyLevel_enum) then [Enum "urgencyLevel" value]
      else if negb (urgencyLevel_validator this value) then [Custom "urgencyLevel" urgencyLevel_message]
      else []
  end.

(** [urgencyScore]: min 0, max 10. *)
Definition validate_urgencyScore (this : Appointment) : list ValidatorError :=
  match urgencyScore this with
  | None => []
  | Some score =>
      if negb (Qle_bool urgencyScore_min score) then [Min "urgencyScore"]
      else if negb (Qle_bool score urgencyScore_max) then [Max "urgencyScore"]
      else []
  end.

Definition validate_status (this : Appointment) : list ValidatorError :=
  match status this with
  | None => []
  | Some value => if negb (member value status_enum) then [Enum "status" value] else []
  end.

(** The errors of every path but [urgencyLevel], in schema order. *)
Definition validate_before (this : Appointment) : list ValidatorError :=
  List.concat
    [ required_string "doctorMedicalId" (doctorMedicalId this);
      required_string "patientMedicalId" (patientMedicalId this);
      required_string "doctorName" (doctorName this);
      required_string "patientName" (patientName this);
      required_date "date" (date this);
      required_string "time" (time this);
      required_string "symptoms" (symptoms this) ].

Definition validate_after (this : Appointment) : list ValidatorError :=
  List.app (validate_urgencyScore this) (validate_status this).

(** [doc.validate()]: the errors a [ValidationError] would carry. *)
Definition validate (this : Appointment) : list ValidatorError :=
  List.app (validate_before this) (List.app (validate_urgencyLevel this) (validate_after this)).

Definition or_default {A : Type} (v : option A) (d : A) : option A :=
  match v with
  | Some x => Some x
  | None => Some d
  end.

(** [new Appointment(fields)]: paths left undefined take their default. *)
Definition new_document (fields : Appointment) : Appointment :=
  {| doctorMedicalId := doctorMedicalId fields;
     patientMedicalId := patientMedicalId fields;
     doctorName := doctorName fields;
     patientName := patientName fields;
     date := date fields;
     time := time fields;
     symptoms := symptoms fields;
     urgencyLevel := or_default (urgencyLevel fields) urgencyLevel_default;
     urgencyScore := or_default (urgencyScore fields) urgencyScore_default;
     fromSymptomChecker := or_default (fromSymptomChecker fields) fromSymptomChecker_default;
     status := or_default (status fields) status_default |}.

Definition set_path {A : Type} (old new : option A) : option A :=
  match new with
  | Some x => Some x
  | None => old
  end.

(** [Object.assign(doc, changes)]: the paths given in [changes] are set. *)
Definition assign (doc changes : Appointment) : Appointment :=
  {| doctorMedicalId := set_path (doctorMedicalId doc) (doctorMedicalId changes);
     patientMedicalId := set_path (patientMedicalId doc) (patientMedicalId changes);
     doctorName := set_path (doctorName doc) (doctorName changes);
     patientName := set_path (patientName doc) (patientName changes);
     date := set_path (date doc) (date changes);
     time := set_path (time doc) (time changes);
     symptoms := set_path (symptoms doc) (symptoms changes);
     urgencyLevel := set_path (urgencyLevel doc) (urgencyLevel changes);
     urgencyScore := set_path (urgencyScore doc) (urgencyScore changes);
     fromSymptomChecker := set_path (fromSymptomChecker doc) (fromSymptomChecker changes);
     status := set_path (status doc) (status changes) |}.

Inductive WriteResult : Type :=
| Saved (id : nat) (doc : Appointment)
| ValidationError (errors : list ValidatorError)
| NotFound.

(** [doc.save()] on the document with identity [id]. *)
Definition save (collection : gmap nat Appointment) (id : nat) (doc : Appointment)
  : gmap nat Appointment * WriteResult :=
  match validate doc with
  | [] => (<[id := doc]> collection, Saved id doc)
  | errors => (collection, ValidationError errors)
  end.

Inductive Write : Type :=
| Create (fields : Appointment)
| Update (id : nat) (changes : Appointment).

(** The document a write proposes to store, and under which identity. *)
Definition proposed (collection : gmap nat Appointment) (w : Write) : option (nat * Appointment) :=
  match w with
  | Create fields => Some (fresh (dom collection), new_document fields)
  | Update id changes =>
      match collection !! id with
      | Some doc => Some (id, assign doc changes)
      | None => None
      end
  end.

(** [Appointment.create(fields)], or [findById], assignment and [save]. *)
Definition write (collection : gmap nat Appointment) (w : Write)
  : gmap nat Appointment * WriteResult :=
  match proposed collection w with
  | Some (id, doc) => save collection id doc
  | None => (collection, NotFound)
  end.

End AppointmentModel.

(** * The appointment workflow of HM_INTERVIEW_GUIDE.md

    The guide gives the state machine of the appointment status and the
    pre-save hook that enforces it. *)

Module StatusWorkflow.

(** State machine approach with validation *)
Definition appointmentStateMachine : list (string * list string) :=
  [ ("pending", ["approved"; "rejected"]);
    ("approved", ["completed"; "cancelled"]);
    ("rejected", ["pending"]);
    ("completed", []) ].

Fixpoint transitions_from (key : string) (machine : list (string * list string)) : option (list string) :=
  match machine with
  | [] => None
  | (k, v) :: rest => if k =? key then Some v else transitions_from key rest
  end.

(** The paths of a document the hook reads. [previousStatus] is [None]
    when the document has no such property. *)
Record Appointment : Type := {
  status : string;
  previousStatus : option string
}.

Definition array_includes (l : list string) (x : string) : bool := existsb (String.eqb x) l.

(** [appointmentSchema.pre('save', function(next) { ... })].  A key the
    machine does not have gives [undefined], on which [includes] cannot be
    called. *)
Definition pre_save (isModified_status : bool) (this : Appointment) : completion unit :=
  if isModified_status then
    match
      match previousStatus this with
      | Some key => transitions_from key appointmentStateMachine
      | None => None
      end
    with
    | None => Throw (TypeError "Cannot read properties of undefined (reading 'includes')")
    | Some validTransitions =>
        if negb (array_includes validTransitions (status this))
        then Throw (ErrorObject (Some "Invalid status transition"))
        else Normal tt
    end
  else Normal tt.

(** [this.isModified('status')]: the status differs from the stored one;
    every path of a new document counts as modified. *)
Definition isModified_status (stored : option Appointment) (this : Appointment) : bool :=
  match stored with
  | Some old => negb (status old =? status this)
  | None => true
  end.

(** [doc.save()]: the hook runs first; an error passed to [next] aborts the
    save and nothing is written. *)
Definition save (collection : gmap nat Appointment) (id : nat) (this : Appointment)
  : gmap nat Appointment * completion unit :=
  match pre_save (isModified_status (collection !! id) this) this with
  | Normal _ => (<[id := this]> collection, Normal tt)
  | Throw e => (collection, Throw e)
  end.

End StatusWorkflow.

(** * The older triage service

    The variant of [services/nlpService] that precedes the structured one
    (frontend/src/components/Appoints/BookAppointment.js, lines 976 to
    1188).  Its [queryNLPService] returns the report string alone; its
    helpers [getSeverityEmoji], [getUrgencyIndicator],
    [formatFallbackResponse] and [formatErrorResponse] are those of the
    structured variant, text for text, and so is the choice of the error
    message. *)

Module LegacyNlpService.

Section WithRuntime.
Context {rt : Runtime}.
Local Open Scope js_scope.

(** Format the structured JSON response into a nice presentation *)
Definition formatSymptomAnalysis (data : value) : completion string :=
  let* severity_score := Get data "severity_score" in
  let* severityEmoji := NlpService.getSeverityEmoji severity_score in
  let* urgency := Get data "urgency" in
  let* urgencyColor := NlpService.getUrgencyIndicator urgency in
  let* score_text := toString severity_score in
  let* severity_level := Get data "severity_level" in
  let* level_text := toString severity_level in
  let* urgency_text := toString urgency in
  let* primary_assessment := Get data "primary_assessment" in
  let* assessment_text := toString primary_assessment in
  let* possible_conditions := Get data "possible_conditions" in
  let* conditions := NlpService.map_lines "   • " possible_conditions in
  let* immediate_actions := Get data "immediate_actions" in
  let* actions := NlpService.map_lines "   ✓ " immediate_actions in
  let* self_care_tips := Get data "self_care_tips" in
  let* tips := NlpService.map_lines "   • " self_care_tips in
  let* warning_signs := Get data "warning_signs" in
  let* signs := NlpService.map_lines "   🚨 " warning_signs in
  let* when_to_seek_help := Get data "when_to_seek_help" in
  let* help_text := toString when_to_seek_help in
  let* disclaimer := Get data "disclaimer" in
  let* disclaimer_text := toString disclaimer in
  let report :=
    List.app
      [ "🏥 SYMPTOM ANALYSIS REPORT";
        NlpService.rule;
        "";
        "📊 SEVERITY ASSESSMENT";
        "   " ++ severityEmoji ++ " Score: " ++ score_text
              ++ "/10 | Level: " ++ level_text;
        "   " ++ urgencyColor ++ " Urgency: " ++ urgency_text;
        "";
        "🔍 PRIMARY ASSESSMENT";
        "   " ++ assessment_text;
        "";
        "🎯 POSSIBLE CONDITIONS" ]
   (List.app conditions
   (List.app
      [ "";
        "⚡ IMMEDIATE ACTIONS" ]
   (List.app actions
   (List.app
      [ "";
        "🏠 SELF-CARE RECOMMENDATIONS" ]
   (List.app tips
   (List.app
      [ "";
        "⚠️ WARNING SIGNS TO WATCH" ]
   (List.app signs
      [ "";
        "👨‍⚕️ WHEN TO SEEK MEDICAL HELP";
        "   " ++ help_text;
        "";
        NlpService.rule;
        "⚖️ MEDICAL DISCLAIMER";
        "   " ++ disclaimer_text;
        NlpService.rule ]))))))) in
  Normal (String.concat nl report).

(** The inner [try] block. *)
Definition parse_response (query text : string) : completion value :=
  match NlpService.jsonMatch text with
  | Some span =>
      let* jsonData := JSON_parse span in
      let* report := formatSymptomAnalysis jsonData in
      Normal (VStr report)
  | None => Normal (VStr (NlpService.formatFallbackResponse query text))
  end.

Definition queryNLPService (query : string) (service : NlpService.ServiceOutcome)
  : completion value :=
  try_catch
    (let* text := match service with
                  | NlpService.Responded text => Normal text
                  | NlpService.Failed error => Throw error
                  end in
     try_catch (parse_response query text)
               (fun parseError =>
                  Normal (VStr (NlpService.formatFallbackResponse query text))))
    (fun error =>
       Normal (VStr (NlpService.formatErrorResponse query
                       (NlpService.errorMessage_of error)))).

End WithRuntime.

End LegacyNlpService.

(** * frontend/src/components/Appoints/BookAppointment.js

    The state of the booking form and what it submits.  The form data is
    an object, kept as its list of properties; [location.state] and
    [userData] are whatever the router and the authentication context
    hold.  The call [createAppointmentRequest] of the API module is a
    parameter: the value it resolves to, or the exception it rejects
    with. *)

Module BookAppointment.

(** [v?.name] *)
Definition optional_Get (v : value) (name : string) : value :=
  match v with
  | VObj props =>
      match own_property name props with
      | Some x => x
      | None => VUndefined
      end
  | _ => VUndefined
  end.

(** [{ ...props, [key]: v }]: a key the object has keeps its place, a new
    one goes last. *)
Fixpoint spread_with (key : string) (v : value) (props : list (string * value))
  : list (string * value) :=
  match props with
  | [] => [(key, v)]
  | (k, x) :: rest =>
      if k =? key then (key, v) :: rest else (k, x) :: spread_with key v rest
  end.

(** The initial [formData] of [useState]. *)
Definition initial_formData (location_state userData : value) : list (string * value) :=
  [ ("doctorMedicalId", VStr "");
    ("patientMedicalId", js_or (optional_Get userData "medicalId") (VStr ""));
    ("preferredDate", VStr "");
    ("preferredTime", VStr "");
    ("symptoms", js_or (optional_Get location_state "symptoms") (VStr ""));
    ("contactInfo", VStr "");
    ("notificationType", VStr "email");
    ("meetingType", VStr "offline");
    ("urgencyLevel", js_or (optional_Get location_state "urgencyLevel") (VStr "Routine"));
    ("urgencyScore",
     match optional_Get location_state "severityScore" with
     | VUndefined => VNum (Fin 0)
     | severityScore => severityScore
     end) ].

(** What the user can do to the form between two submissions: each input
    of the rendered form with the handler it is wired to.  The inputs that
    use [handleChange] are the ones named [contactInfo] and
    [notificationType]. *)
Inductive FormEvent : Type :=
| SelectDoctor (medicalId : value)
| EditSymptoms (text : string)
| EditPreferredDate (text : string)
| EditPreferredTime (text : string)
| ChangeContactInfo (text : string)
| ChangeNotificationType (text : string)
| SwitchMeetingType (checked : bool).

Definition on_event (formData : list (string * value)) (e : FormEvent)
  : list (string * value) :=
  match e with
  | SelectDoctor medicalId => spread_with "doctorMedicalId" medicalId formData
  | EditSymptoms text => spread_with "symptoms" (VStr text) formData
  | EditPreferredDate text => spread_with "preferredDate" (VStr text) formData
  | EditPreferredTime text => spread_with "preferredTime" (VStr text) formData
  | ChangeContactInfo text => spread_with "contactInfo" (VStr text) formData
  | ChangeNotificationType text => spread_with "notificationType" (VStr text) formData
  | SwitchMeetingType checked =>
      spread_with "meetingType" (VStr (if checked then "online" else "offline")) formData
  end.

(** The object [handleSubmit] hands to the API. *)
Definition appointmentData (formData : list (string * value)) (medicalId : value)
  : list (string * value) :=
  spread_with "urgencyLevel" (optional_Get (VObj formData) "urgencyLevel")
    (spread_with "urgencyScore" (optional_Get (VObj formData) "urgencyScore")
       (spread_with "patientMedicalId" medicalId formData)).

(** Reset form or redirect *)
Definition reset_form (formData : list (string * value)) : list (string * value) :=
  spread_with "contactInfo" (VStr "")
    (spread_with "symptoms" (VStr "")
       (spread_with "preferredTime" (VStr "")
          (spread_with "preferredDate" (VStr "")
             (spread_with "doctorMedicalId" (VStr "") formData)))).

Record Snackbar : Type := {
  open : bool;
  message : string;
  severity : string
}.

Record State : Type := {
  formData : list (string * value);
  snackbar : Snackbar;
  loading : bool
}.

(** [handleSubmit], once the request has settled. *)
Definition handleSubmit
           (createAppointmentRequest : list (string * value) -> completion value)
           (userData : value) (st : State) : State :=
  match
    bind (Get userData "medicalId") (fun medicalId =>
    bind (createAppointmentRequest (appointmentData (formData st) medicalId))
         (fun response => Normal tt))
  with
  | Normal _ =>
      {| formData := reset_form (formData st);
         snackbar := {| open := true;
                        message := "Appointment request sent successfully!";
                        severity := "success" |};
         loading := false |}
  | Throw _ =>
      {| formData := formData st;
         snackbar := {| open := true;
                        message := "Failed to book appointment. Please try again.";
                        severity := "error" |};
         loading := false |}
  end.

(** What happens to the form data over time: an edit by the user, or the
    reset that follows a submission that succeeded. *)
Inductive FormStep : Type :=
| Edited (e : FormEvent)
| Submitted.

Definition on_step (formData : list (string * value)) (s : FormStep)
  : list (string * value) :=
  match s with
  | Edited e => on_event formData e
  | Submitted => reset_form formData
  end.

Definition after_steps (formData : list (string * value)) (steps : list FormStep)
  : list (string * value) :=
  List.fold_left on_step steps formData.

End BookAppointment.

(** * Histories of writes to the appointments *)

(** The collection after a sequence of writes. *)
Fixpoint after_writes (collection : gmap nat AppointmentModel.Appointment)
         (ws : list AppointmentModel.Write) : gmap nat AppointmentModel.Appointment :=
  match ws with
  | [] => collection
  | w :: rest => after_writes (fst (AppointmentModel.write collection w)) rest
  end.

(** * Statements *)

(** ** Vocabulary of the statements *)

(** A value that is neither [undefined] nor [null]. *)
Definition defined (v : value) : Prop := v <> VUndefined /\ v <> VNull.

(** The shape of a triage result: the four properties, a string report,
    and no property left undefined. *)
Definition well_formed (r : value) : Prop :=
  exists formattedMessage severityScore urgency recommendedAction,
    r = NlpService.result formattedMessage severityScore urgency recommendedAction
    /\ defined severityScore /\ defined urgency /\ defined recommendedAction.

(** The response text holds no JSON: no brace span, or a span that
    [JSON.parse] rejects. *)
Definition no_valid_json {rt : Runtime} (text : string) : Prop :=
  NlpService.jsonMatch text = None
  \/ exists span e, NlpService.jsonMatch text = Some span /\ JSON_parse span = Throw e.

(** The character occurs in the string. *)
Fixpoint mentions (c : ascii) (s : string) : bool :=
  match s with
  | EmptyString => false
  | String a rest => (a =? c)%char || mentions c rest
  end.

(** The fixed text of the fallback report before the query, and between
    the query and the raw text. *)
Definition fallback_head : string :=
  String.concat nl
    [ "🏥 SYMPTOM ANALYSIS REPORT"; NlpService.rule; ""; "📝 SYMPTOMS ANALYZED: " ].
Definition fallback_middle : string :=
  String.concat nl [ ""; ""; "📊 ASSESSMENT"; "   " ].

(** The value of a property of an object, [undefined] when it has none. *)
Definition field (props : list (string * value)) (name : string) : value :=
  match own_property name props with
  | Some x => x
  | None => VUndefined
  end.

Definition is_array (v : value) : bool :=
  match v with
  | VArr _ => true
  | _ => false
  end.

(** A value that JavaScript converts to a string: anything but an object
    with a property named [toString], and, for an array, with no such
    object among its elements, at any depth. *)
Fixpoint printable (v : value) : bool :=
  match v with
  | VArr elems => forallb printable elems
  | VObj props =>
      match own_property "toString" props with
      | Some _ => false
      | None => true
      end
  | _ => true
  end.

(** The properties that the structured report prints. *)
Definition printed_fields : list string :=
  [ "severity_score"; "urgency"; "primary_assessment"; "first_aid_tips";
    "warning_signs"; "when_to_seek_help"; "recommended_action"; "disclaimer" ].

(** Every printed property of the object is printable. *)
Definition prints (props : list (string * value)) : bool :=
  forallb (fun name => printable (field props name)) printed_fields.

(** The urgency invariant of a stored appointment: a level other than
    'Routine' comes with [fromSymptomChecker] true. *)
Definition urgency_gated (doc : AppointmentModel.Appointment) : Prop :=
  forall level,
    AppointmentModel.urgencyLevel doc = Some level ->
    level <> "Routine" ->
    AppointmentModel.fromSymptomChecker doc = Some true.

(** ** Sample inputs *)

Module Samples.

(** A reply that wraps a JSON object in prose. *)
Definition reply_json : string :=
  "{" ++ quoted "severity_score" ++ ": 7.5, "
      ++ quoted "urgency" ++ ": " ++ quoted "Urgent" ++ ", "
      ++ quoted "first_aid_tips" ++ ": [" ++ quoted "Rest" ++ ", " ++ quoted "Drink water" ++ "], "
      ++ quoted "warning_signs" ++ ": [" ++ quoted "Fever above 39" ++ "]}".

Definition reply : string := "Here is the analysis: " ++ reply_json ++ " Take care.".

Definition reply_props : list (string * value) :=
  [ ("severity_score", VNum (Fin (15 # 2)));
    ("urgency", VStr "Urgent");
    ("first_aid_tips", VArr [VStr "Rest"; VStr "Drink water"]);
    ("warning_signs", VArr [VStr "Fever above 39"]) ].

(** A reply whose JSON object has the severity score and nothing else. *)
Definition reply_score_only : string := "{" ++ quoted "severity_score" ++ ": 7}".

Definition quota_error : exn :=
  ErrorObject (Some "[429 Too Many Requests] You exceeded your current quota").

Definition booking (level : option string) (score : option Q) (checker : option bool)
  : AppointmentModel.Appointment :=
  {| AppointmentModel.doctorMedicalId := Some "DOC001";
     AppointmentModel.patientMedicalId := Some "PAT001";
     AppointmentModel.doctorName := Some "Dr. Smith";
     AppointmentModel.patientName := Some "John Doe";
     AppointmentModel.date := Some 1705744800000%Z;
     AppointmentModel.time := Some "10:00 AM";
     AppointmentModel.symptoms := Some "mild headache since this morning";
     AppointmentModel.urgencyLevel := level;
     AppointmentModel.urgencyScore := score;
     AppointmentModel.fromSymptomChecker := checker;
     AppointmentModel.status := None |}.

(** A change of the urgency level, and of the provenance flag if given. *)
Definition changes (level : string) (flag : option bool) : AppointmentModel.Appointment :=
  {| AppointmentModel.doctorMedicalId := None;
     AppointmentModel.patientMedicalId := None;
     AppointmentModel.doctorName := None;
     AppointmentModel.patientName := None;
     AppointmentModel.date := None;
     AppointmentModel.time := None;
     AppointmentModel.symptoms := None;
     AppointmentModel.urgencyLevel := Some level;
     AppointmentModel.urgencyScore := None;
     AppointmentModel.fromSymptomChecker := flag;
     AppointmentModel.status := None |}.



End Samples.

(** ** Further sample inputs *)

Module MoreSamples.

(** A reply whose JSON object has the two lists and no severity score. *)
Definition reply_without_score : string :=
  "{" ++ quoted "first_aid_tips" ++ ": [" ++ quoted "Rest" ++ "], "
      ++ quoted "warning_signs" ++ ": []}".

Definition props_without_score : list (string * value) :=
  [ ("first_aid_tips", VArr [VStr "Rest"]); ("warning_signs", VArr []) ].

(** A signed-in patient, and the state the symptom checker navigates
    with. *)
Definition patient : value :=
  VObj [ ("username", VStr "john"); ("medicalId", VStr "PAT001") ].

Definition checker_state : value :=
  VObj [ ("symptoms", VStr "mild headache since this morning");
         ("severityScore", VNum (Fin 7));
         ("urgencyLevel", VStr "Urgent");
         ("fromSymptomChecker", VBool true) ].

(** A request that the API accepts. *)
Definition accepted (data : list (string * value)) : completion value :=
  Normal (VObj [ ("data", VObj data) ]).

Definition pending_record : StatusWorkflow.Appointment :=
  {| StatusWorkflow.status := "pending"; StatusWorkflow.previousStatus := None |}.

Definition approve : StatusWorkflow.Appointment :=
  {| StatusWorkflow.status := "approved"; StatusWorkflow.previousStatus := Some "pending" |}.

Definition cancelled_record : StatusWorkflow.Appointment :=
  {| StatusWorkflow.status := "cancelled"; StatusWorkflow.previousStatus := Some "approved" |}.

Definition reopen : StatusWorkflow.Appointment :=
  {| StatusWorkflow.status := "pending"; StatusWorkflow.previousStatus := Some "cancelled" |}.






(** A reply whose JSON object has every field of the prompt's schema, with
    an object in place of the assessment text; the object has a property
    named [toString]. *)
Definition reply_unprintable : string :=
  "{" ++ quoted "severity_score" ++ ": 7, "
      ++ quoted "urgency" ++ ": " ++ quoted "Urgent" ++ ", "
      ++ quoted "primary_assessment" ++ ": {" ++ quoted "toString" ++ ": 1}, "
      ++ quoted "first_aid_tips" ++ ": [" ++ quoted "Rest" ++ "], "
      ++ quoted "warning_signs" ++ ": []}".

Definition props_unprintable : list (string * value) :=
  [ ("severity_score", VNum (Fin 7));
    ("urgency", VStr "Urgent");
    ("primary_assessment", VObj [ ("toString", VNum (Fin 1)) ]);
    ("first_aid_tips", VArr [VStr "Rest"]);
    ("warning_signs", VArr []) ].

End MoreSamples.

(** * Proofs *)

(** ** Tactics *)

(** A formatter throws as soon as one of its steps does: the steps are
    run until one is seen to throw. *)
Ltac formatter_throws :=
  repeat match goal with
         | |- exists e, Throw _ = Throw e => eexists; reflexivity
         | |- exists e, bind (Throw _) _ = Throw e => cbn [bind]
         | |- exists e, bind (Normal _) _ = Throw e => cbn [bind]
         | |- exists e, bind (NlpService.map_lines _ _) _ = Throw e =>
             progress cbn [NlpService.map_lines]
         | |- exists e, bind ?c _ = Throw e => destruct c; cbn [bind]
         end.

(** ** Strings *)

Lemma append_cons (x : ascii) (a b : string) : String x a ++ b = String x (a ++ b).
Proof. reflexivity. Qed.

Lemma append_assoc (a b c : string) : (a ++ b) ++ c = a ++ (b ++ c).
Proof.
  induction a as [|x a IH]; [reflexivity|].
  rewrite !append_cons. now rewrite IH.
Qed.

Lemma prefix_append (b c : string) : String.prefix b (b ++ c) = true.
Proof.
  induction b as [|x b IH]; [destruct c; reflexivity|].
  rewrite append_cons. simpl.
  destruct (ascii_dec x x); [exact IH | congruence].
Qed.

Lemma includes_unfold (s needle : string) :
  includes s needle =
  String.prefix needle s ||
  match s with
  | EmptyString => false
  | String _ rest => includes rest needle
  end.
Proof. destruct s; reflexivity. Qed.

Lemma includes_append (a b c : string) : includes (a ++ b ++ c) b = true.
Proof.
  induction a as [|x a IH].
  - change (EmptyString ++ b ++ c) with (b ++ c).
    rewrite includes_unfold, prefix_append. reflexivity.
  - rewrite append_cons, includes_unfold, IH. apply orb_true_r.
Qed.

(** ** Values *)

Lemma js_or_defined (a d : value) : defined d -> defined (js_or a d).
Proof.
  intros Hd. unfold js_or.
  destruct (truthy a) eqn:Ha; [|exact Hd].
  split; intros ->; discriminate Ha.
Qed.

Lemma js_or_truthy (a d : value) : truthy a = true -> js_or a d = a.
Proof. intros H. unfold js_or. now rewrite H. Qed.

Lemma js_or_falsy (a d : value) : truthy a = false -> js_or a d = d.
Proof. intros H. unfold js_or. now rewrite H. Qed.

Lemma Get_object (props : list (string * value)) (name : string) :
  Get (VObj props) name =
  Normal (match own_property name props with Some x => x | None => VUndefined end).
Proof. simpl. now destruct (own_property name props). Qed.

Lemma Get_defined (v : value) (name : string) :
  defined v -> exists x, Get v name = Normal x.
Proof.
  intros [Hu Hn]. destruct v; try congruence; simpl; eauto.
  destruct (own_property name props); eauto.
Qed.

(** ** The brace span *)

Lemma from_first_spec (c : ascii) (s rest : string) :
  NlpService.from_first c s = Some rest ->
  exists before tail,
    s = before ++ rest /\ rest = String c tail /\ mentions c before = false.
Proof.
  revert rest. induction s as [|a s IH]; intros rest H; [discriminate|].
  simpl in H. destruct (Ascii.eqb_spec a c) as [->|N].
  - injection H as <-. exists EmptyString, s. auto.
  - destruct (IH _ H) as (before & tail & -> & -> & M).
    exists (String a before), tail. repeat split. simpl.
    destruct (Ascii.eqb_spec a c); [contradiction|exact M].
Qed.

Lemma upto_last_None (c : ascii) (s : string) :
  NlpService.upto_last c s = None -> mentions c s = false.
Proof.
  induction s as [|a s IH]; [reflexivity|]. simpl.
  destruct (NlpService.upto_last c s); [discriminate|].
  destruct (Ascii.eqb_spec a c); [discriminate|]. intros _. now apply IH.
Qed.

Lemma upto_last_spec (c : ascii) (s span : string) :
  NlpService.upto_last c s = Some span ->
  exists body after,
    s = span ++ after /\ span = body ++ String c EmptyString
    /\ mentions c after = false.
Proof.
  revert span. induction s as [|a s IH]; intros span H; [discriminate|].
  simpl in H. destruct (NlpService.upto_last c s) as [p|] eqn:E.
  - injection H as <-. destruct (IH _ eq_refl) as (body & after & -> & -> & M).
    exists (String a body), after. auto.
  - destruct (Ascii.eqb_spec a c) as [->|N]; [|discriminate].
    injection H as <-. exists EmptyString, s. repeat split.
    now apply upto_last_None.
Qed.

Lemma from_first_None (c : ascii) (s : string) :
  NlpService.from_first c s = None -> mentions c s = false.
Proof.
  induction s as [|a s IH]; [reflexivity|]. simpl.
  destruct (Ascii.eqb_spec a c); [discriminate|]. exact IH.
Qed.

(** The match runs from the first opening brace of the text to its last
    closing brace. *)
Lemma jsonMatch_span (text span : string) :
  NlpService.jsonMatch text = Some span ->
  exists before body after,
    text = before ++ span ++ after
    /\ span = String "{" (body ++ "}")
    /\ mentions "{" before = false
    /\ mentions "}" after = false.
Proof.
  unfold NlpService.jsonMatch.
  destruct (NlpService.from_first "{" text) as [rest|] eqn:F; [|discriminate].
  intros U.
  destruct (from_first_spec _ _ _ F) as (before & tail & -> & -> & Mb).
  destruct (upto_last_spec _ _ _ U) as (body & after & E & -> & Ma).
  destruct body as [|b body].
  - discriminate E.
  - rewrite append_cons in E. injection E as <- E.
    exists before, body, after. rewrite E. repeat split; assumption.
Qed.

(** There is no match when no opening brace is followed by a closing one. *)
Lemma jsonMatch_None (text : string) :
  NlpService.jsonMatch text = None ->
  mentions "{" text = false
  \/ exists before rest,
       text = before ++ rest /\ mentions "{" before = false /\ mentions "}" rest = false.
Proof.
  unfold NlpService.jsonMatch.
  destruct (NlpService.from_first "{" text) as [rest|] eqn:F.
  - intros U. right.
    destruct (from_first_spec _ _ _ F) as (before & tail & -> & -> & Mb).
    exists before, (String "{" tail). repeat split; [assumption|].
    now apply upto_last_None.
  - intros _. left. now apply from_first_None.
Qed.

(** ** Conversions *)

(** Induction on a value, with the elements of an array at hand. *)
Lemma value_nested_ind (P : value -> Prop) :
  P VUndefined -> P VNull -> (forall b, P (VBool b)) -> (forall n, P (VNum n)) ->
  (forall s, P (VStr s)) ->
  (forall elems, Forall P elems -> P (VArr elems)) ->
  (forall props, P (VObj props)) ->
  forall v, P v.
Proof.
  intros U N B M S A O. fix IH 1.
  intros [ | |b|n|s|elems|props];
    [exact U|exact N|apply B|apply M|apply S| |apply O].
  apply A. induction elems as [|x r IHr]; constructor; [apply IH|exact IHr].
Qed.

Lemma traverse_returns {A B : Type} (f : A -> completion B) (l : list A) :
  (forall x, In x l -> exists y, f x = Normal y) ->
  exists ys, traverse f l = Normal ys.
Proof.
  induction l as [|x l IH]; intros H; [now exists []|].
  destruct (H x (or_introl eq_refl)) as [y Ey].
  destruct IH as [ys Eys]; [intros z Hz; apply H; now right|].
  exists (y :: ys). cbn [traverse]. now rewrite Ey, Eys.
Qed.

Lemma traverse_throws {A B : Type} (f : A -> completion B) (l : list A) (x : A) (e : exn) :
  In x l -> f x = Throw e -> exists e', traverse f l = Throw e'.
Proof.
  induction l as [|z l IH]; intros I E; [contradiction|].
  cbn [traverse]. destruct (f z) as [y|e'] eqn:Ez; cbn [bind]; [|eauto].
  destruct I as [->|I]; [congruence|].
  destruct (IH I E) as [e' ->]. cbn [bind]. eauto.
Qed.

Lemma traverse_In {A B : Type} (f : A -> completion B) (l : list A) (ys : list B) :
  traverse f l = Normal ys ->
  forall x y, In x l -> f x = Normal y -> In y ys.
Proof.
  revert ys. induction l as [|z l IH]; intros ys E x y I Ex; [contradiction|].
  cbn [traverse] in E. destruct (f z) as [y'|] eqn:Ez; cbn [bind] in E; [|discriminate].
  destruct (traverse f l) as [ys'|]; cbn [bind] in E; [|discriminate].
  injection E as <-. destruct I as [->|I].
  - left. congruence.
  - right. now apply (IH ys' eq_refl x y).
Qed.

Lemma traverse_Forall {A B : Type} (f : A -> completion B) (P : B -> Prop)
      (l : list A) (ys : list B) :
  (forall x y, f x = Normal y -> P y) ->
  traverse f l = Normal ys -> Forall P ys.
Proof.
  intros H. revert ys. induction l as [|z l IH]; intros ys E.
  - injection E as <-. constructor.
  - cbn [traverse] in E. destruct (f z) as [y'|] eqn:Ez; cbn [bind] in E; [|discriminate].
    destruct (traverse f l) as [ys'|]; cbn [bind] in E; [|discriminate].
    injection E as <-. constructor; [now apply (H z)|now apply IH].
Qed.

Lemma forallb_false {A : Type} (f : A -> bool) (l : list A) :
  forallb f l = false -> exists x, In x l /\ f x = false.
Proof.
  induction l as [|x r IH]; [discriminate|].
  cbn [forallb]. destruct (f x) eqn:Fx; intros H.
  - destruct (IH H) as (y & Hy & Fy). exists y. split; [now right|exact Fy].
  - exists x. split; [now left|exact Fx].
Qed.

Section ConversionProperties.
Context {rt : Runtime}.
Import NlpService.

(** [toString] returns on a printable value and throws on any other. *)
Lemma toString_spec (v : value) :
  if printable v then exists s, toString v = Normal s
  else exists e, toString v = Throw e.
Proof.
  induction v as [ | |b|n|s|elems IH|props] using value_nested_ind;
    cbn [printable toString]; eauto.
  - destruct b; eauto.
  - destruct (forallb printable elems) eqn:A.
    + edestruct (traverse_returns
                   (fun x => match x with
                             | VUndefined | VNull => Normal ""
                             | _ => toString x
                             end) elems) as [parts ->]; [|cbn [bind]; eauto].
      intros x Hx.
      pose proof (proj1 (forallb_forall _ _) A x Hx) as Px.
      pose proof (proj1 (List.Forall_forall _ _) IH x Hx) as Tx.
      cbv beta in Tx. rewrite Px in Tx. destruct x; eauto.
    + destruct (forallb_false _ _ A) as (x & Hx & Px).
      pose proof (proj1 (List.Forall_forall _ _) IH x Hx) as Tx.
      cbv beta in Tx. rewrite Px in Tx. destruct Tx as [e Tx].
      edestruct (traverse_throws
                   (fun x => match x with
                             | VUndefined | VNull => Normal ""
                             | _ => toString x
                             end) elems x e Hx) as [e' ->]; [|cbn [bind]; eauto].
      destruct x; try discriminate Px; exact Tx.
  - destruct (own_property "toString" props); eauto.
Qed.

Lemma toString_printable (v : value) :
  printable v = true -> exists s, toString v = Normal s.
Proof. intros P. pose proof (toString_spec v) as H. now rewrite P in H. Qed.

Lemma toString_unprintable (v : value) :
  printable v = false -> exists e, toString v = Throw e.
Proof. intros P. pose proof (toString_spec v) as H. now rewrite P in H. Qed.

Lemma toNumber_printable (v : value) :
  printable v = true -> exists n, toNumber v = Normal n.
Proof.
  intros P. destruct (toString_printable v P) as [s E].
  destruct v as [ | |b|n|t|elems|props]; unfold toNumber; try rewrite E;
    cbn [bind]; eauto.
  destruct b; eauto.
Qed.

Lemma toNumber_unprintable (v : value) :
  printable v = false -> exists e, toNumber v = Throw e.
Proof.
  intros P. destruct (toString_unprintable v P) as [e E].
  destruct v as [ | |b|n|t|elems|props]; try discriminate P;
    unfold toNumber; rewrite E; cbn [bind]; eauto.
Qed.

Lemma js_le_printable (v : value) (k : Z) :
  printable v = true -> exists b, js_le v k = Normal b.
Proof.
  intros P. destruct (toNumber_printable v P) as [n E].
  unfold js_le. rewrite E. cbn [bind]. eauto.
Qed.

Lemma js_gt_printable (v : value) (k : Z) :
  printable v = true -> exists b, js_gt v k = Normal b.
Proof.
  intros P. destruct (toNumber_printable v P) as [n E].
  unfold js_gt. rewrite E. cbn [bind]. eauto.
Qed.

Lemma getSeverityEmoji_printable (score : value) :
  printable score = true -> exists emoji, getSeverityEmoji score = Normal emoji.
Proof.
  intros P. destruct (toNumber_printable score P) as [n E].
  unfold getSeverityEmoji, js_le. rewrite E. cbn [bind].
  repeat match goal with
         | |- context [if ?c then _ else _] => destruct c; cbn [bind]
         end; eauto.
Qed.

Lemma getSeverityEmoji_unprintable (score : value) :
  printable score = false -> exists e, getSeverityEmoji score = Throw e.
Proof.
  intros P. destruct (toNumber_unprintable score P) as [e E].
  unfold getSeverityEmoji, js_le. rewrite E. cbn [bind]. eauto.
Qed.

Lemma getUrgencyIndicator_printable (urgency : value) :
  printable urgency = true -> exists i, getUrgencyIndicator urgency = Normal i.
Proof.
  intros P. destruct (toString_printable urgency P) as [key E].
  unfold getUrgencyIndicator. rewrite E. cbn [bind].
  destruct (assoc key indicators); [eauto|].
  destruct (ObjectPrototype_member key); eauto.
Qed.

Lemma map_lines_printable (prefix : string) (elems : list value) :
  printable (VArr elems) = true ->
  exists lines, map_lines prefix (VArr elems) = Normal lines.
Proof.
  cbn [printable map_lines]. intros A. apply traverse_returns. intros x Hx.
  destruct (toString_printable x (proj1 (forallb_forall _ _) A x Hx)) as [s ->].
  cbn [bind]. eauto.
Qed.

(** The lines that [map] makes are the prefixed elements. *)
Lemma map_lines_In (prefix : string) (elems : list value) (lines : list string) :
  map_lines prefix (VArr elems) = Normal lines ->
  forall x s, In x elems -> toString x = Normal s -> In (prefix ++ s) lines.
Proof.
  cbn [map_lines]. intros E x s I T.
  apply (traverse_In _ _ _ E x); [exact I|]. now rewrite T.
Qed.

Lemma map_lines_prefixed (prefix : string) (elems : list value) (lines : list string) :
  map_lines prefix (VArr elems) = Normal lines ->
  Forall (fun l => exists s, l = prefix ++ s) lines.
Proof.
  cbn [map_lines]. apply traverse_Forall. intros x y.
  destruct (toString x) as [s|]; cbn [bind]; [|discriminate].
  intros [= <-]. eauto.
Qed.

Lemma prints_field (props : list (string * value)) (name : string) :
  prints props = true -> In name printed_fields ->
  printable (field props name) = true.
Proof.
  unfold prints. intros H I.
  exact (proj1 (forallb_forall _ _) H name I).
Qed.
End ConversionProperties.

(** ** The triage parser and client *)

Section NlpServiceProperties.
Context {rt : Runtime}.
Import NlpService.

Lemma defined_number (n : number) : defined (VNum n).
Proof. split; discriminate. Qed.

Lemma defined_string (s : string) : defined (VStr s).
Proof. split; discriminate. Qed.

Lemma fallback_result_well_formed (query text : string) :
  well_formed (fallback_result query text).
Proof.
  unfold well_formed, fallback_result.
  do 4 eexists. split; [reflexivity|].
  repeat split; discriminate.
Qed.

Lemma error_result_well_formed (query : string) (error : exn) :
  well_formed (error_result query error).
Proof.
  unfold well_formed, error_result.
  do 4 eexists. split; [reflexivity|].
  repeat split; discriminate.
Qed.

(** Whatever the inner [try] block returns has the shape of a result. *)
Lemma parse_response_well_formed (query text : string) (r : value) :
  parse_response query text = Normal r -> well_formed r.
Proof.
  unfold parse_response.
  destruct (jsonMatch text) as [span|].
  - destruct (JSON_parse span) as [jsonData|e]; simpl; [|discriminate].
    destruct (formatSymptomAnalysis jsonData) as [report|e]; simpl; [|discriminate].
    destruct (Get jsonData "severity_score") as [s|e]; simpl; [|discriminate].
    destruct (Get jsonData "urgency") as [u|e]; simpl; [|discriminate].
    destruct (Get jsonData "recommended_action") as [a|e]; simpl; [|discriminate].
    intros [= <-]. unfold well_formed. do 4 eexists. split; [reflexivity|].
    repeat apply conj; apply js_or_defined;
      first [apply defined_number | apply defined_string].
  - intros [= <-]. apply fallback_result_well_formed.
Qed.

(** The successful path: the inner [catch] turns any exception of the
    inner [try] into the fallback result. *)
Lemma queryNLPService_responded (query text : string) :
  queryNLPService query (Responded text) =
  Normal (match parse_response query text with
          | Normal r => r
          | Throw _ => fallback_result query text
          end).
Proof.
  unfold queryNLPService. simpl.
  destruct (parse_response query text); reflexivity.
Qed.

Lemma queryNLPService_failed (query : string) (error : exn) :
  queryNLPService query (Failed error) = Normal (error_result query error).
Proof. reflexivity. Qed.

(** [queryNLPService] returns, and what it returns is well formed. *)
Lemma queryNLPService_returns (query : string) (service : ServiceOutcome) :
  exists r, queryNLPService query service = Normal r /\ well_formed r.
Proof.
  destruct service as [text|error].
  - rewrite queryNLPService_responded. eexists. split; [reflexivity|].
    destruct (parse_response query text) as [r|e] eqn:E.
    + eapply parse_response_well_formed; eassumption.
    + apply fallback_result_well_formed.
  - rewrite queryNLPService_failed. eexists. split; [reflexivity|].
    apply error_result_well_formed.
Qed.

Lemma parse_response_no_valid_json (query text : string) :
  no_valid_json text ->
  parse_response query text = Normal (fallback_result query text)
  \/ exists e, parse_response query text = Throw e.
Proof.
  unfold parse_response. intros [E | (span & e & E & P)]; rewrite E.
  - now left.
  - right. rewrite P. simpl. eauto.
Qed.

(** The fallback report: fixed text around the query and the raw text. *)
Lemma formatFallbackResponse_echoes (query rawText : string) :
  exists tail,
    formatFallbackResponse query rawText
    = fallback_head ++ query ++ fallback_middle ++ rawText ++ tail.
Proof. eexists. reflexivity. Qed.

Lemma formatFallbackResponse_includes (query rawText : string) :
  includes (formatFallbackResponse query rawText) query = true
  /\ includes (formatFallbackResponse query rawText) rawText = true.
Proof.
  destruct (formatFallbackResponse_echoes query rawText) as [tail ->].
  split.
  - apply includes_append.
  - rewrite <- (append_assoc query), <- (append_assoc fallback_head).
    apply includes_append.
Qed.
End NlpServiceProperties.

Lemma prefix_split (x s : string) :
  String.prefix x s = true -> exists q, s = x ++ q.
Proof.
  revert s. induction x as [|a x IH]; intros s H.
  - exists s. reflexivity.
  - destruct s as [|b s]; simpl in H; [discriminate|].
    destruct (ascii_dec a b) as [->|]; [|discriminate].
    destruct (IH _ H) as [q ->]. exists q. reflexivity.
Qed.

Lemma includes_iff (s x : string) :
  includes s x = true <-> exists p q, s = p ++ x ++ q.
Proof.
  split.
  - induction s as [|a s IH]; rewrite includes_unfold; intros H;
      apply orb_true_iff in H as [H|H].
    + destruct (prefix_split _ _ H) as [q ->]. exists EmptyString, q. reflexivity.
    + discriminate.
    + destruct (prefix_split _ _ H) as [q ->]. exists EmptyString, q. reflexivity.
    + destruct (IH H) as (p & q & ->). exists (String a p), q. reflexivity.
  - intros (p & q & ->). apply includes_append.
Qed.

Lemma concat_In (sep l : string) (ls : list string) :
  In l ls -> exists p q, String.concat sep ls = p ++ l ++ q.
Proof.
  induction ls as [|x xs IH]; [intros []|].
  intros [->|H].
  - destruct xs as [|y ys].
    + exists EmptyString, EmptyString. simpl.
      change (EmptyString ++ l ++ EmptyString) with (l ++ EmptyString).
      clear. induction l as [|a l IH]; [reflexivity|].
      rewrite append_cons. now rewrite <- IH.
    + exists EmptyString, (sep ++ String.concat sep (y :: ys)). reflexivity.
  - destruct (IH H) as (p & q & E).
    destruct xs as [|y ys]; [destruct H|].
    exists (x ++ sep ++ p), q.
    change (String.concat sep (x :: y :: ys)) with (x ++ sep ++ String.concat sep (y :: ys)).
    rewrite E. now rewrite !append_assoc.
Qed.

(** A text that occurs in a line occurs in the joined report. *)
Lemma includes_concat (sep l x : string) (ls : list string) :
  In l ls -> includes l x = true -> includes (String.concat sep ls) x = true.
Proof.
  intros HIn Hx.
  destruct (concat_In sep l ls HIn) as (p & q & ->).
  apply includes_iff in Hx as (p' & q' & ->).
  apply includes_iff. exists (p ++ p'), (q' ++ q).
  now rewrite !append_assoc.
Qed.

Section NlpServiceClaims.
Context {rt : Runtime}.
Import NlpService.

Lemma formatErrorResponse_includes (query errorMessage : string) :
  includes (formatErrorResponse query errorMessage) errorMessage = true.
Proof.
  unfold formatErrorResponse.
  eapply includes_concat with
    (l := "   Note: " ++ errorMessage ++
          ". Please try again later or consult with a healthcare professional directly.").
  - simpl. do 34 right. left. reflexivity.
  - apply includes_append.
Qed.

(** C5.  When the response text holds no brace span, or the span does
    not parse as JSON, [queryNLPService] returns severity score 5,
    urgency 'Same Day', recommended action 'Book an appointment soon',
    and the fallback report, which is fixed text around the query and the
    raw text, both verbatim. *)
Theorem fallback_on_invalid_json (query text : string) :
  no_valid_json text ->
  exists report,
    queryNLPService query (Responded text)
    = Normal (result report (VNum (Fin 5)) (VStr "Same Day")
                     (VStr "Book an appointment soon"))
    /\ report = formatFallbackResponse query text
    /\ (exists tail,
          report = fallback_head ++ query ++ fallback_middle ++ text ++ tail)
    /\ includes report query = true
    /\ includes report text = true.
Proof.
  intros H. exists (formatFallbackResponse query text).
  split; [|split; [reflexivity|split]].
  - rewrite queryNLPService_responded.
    destruct (parse_response_no_valid_json query text H) as [-> | [e ->]];
      reflexivity.
  - apply formatFallbackResponse_echoes.
  - apply formatFallbackResponse_includes.
Qed.

(** The three reads of the result object, on a parsed object. *)
Lemma parse_response_object (query text span report : string)
      (props : list (string * value)) :
  jsonMatch text = Some span ->
  JSON_parse span = Normal (VObj props) ->
  formatSymptomAnalysis (VObj props) = Normal report ->
  parse_response query text
  = Normal (result report
              (js_or (match own_property "severity_score" props with
                      | Some x => x | None => VUndefined end) (VNum (Fin 0)))
              (js_or (match own_property "urgency" props with
                      | Some x => x | None => VUndefined end) (VStr "Routine"))
              (js_or (match own_property "recommended_action" props with
                      | Some x => x | None => VUndefined end) (VStr ""))).
Proof.
  intros M P F. unfold parse_response.
  rewrite M, P. cbn [bind]. rewrite F. cbn [bind].
  rewrite !Get_object. reflexivity.
Qed.

(** The report on an object whose two lists are arrays and whose printed
    properties are printable: the lines of the template, the empty ones
    dropped. *)
Lemma formatSymptomAnalysis_report
      (props : list (string * value)) (tips signs : list value) :
  own_property "first_aid_tips" props = Some (VArr tips) ->
  own_property "warning_signs" props = Some (VArr signs) ->
  prints props = true ->
  exists severityEmoji urgencyColor score_text urgency_text assessment_text
         tip_lines sign_lines help_text action_text more_than_one disclaimer_text,
    getSeverityEmoji (field props "severity_score") = Normal severityEmoji
    /\ toString (field props "severity_score") = Normal score_text
    /\ map_lines "   ✓ " (VArr tips) = Normal tip_lines
    /\ map_lines "   🚨 " (VArr signs) = Normal sign_lines
    /\ js_gt (field props "severity_score") 1 = Normal more_than_one
    /\ formatSymptomAnalysis (VObj props)
       = Normal (String.concat nl (filter_Boolean
           (List.app
              [ "🏥 SYMPTOM ANALYSIS REPORT";
                rule;
                "";
                "📊 SEVERITY ASSESSMENT";
                "   " ++ severityEmoji ++ " Score: " ++ score_text ++ "/10";
                "   " ++ urgencyColor ++ " Urgency: " ++ urgency_text;
                "";
                "🔍 PRIMARY ASSESSMENT";
                "   " ++ assessment_text;
                "";
                "🚑 FIRST AID TIPS" ]
           (List.app tip_lines
           (List.app
              [ "";
                "⚠️ WARNING SIGNS TO WATCH" ]
           (List.app sign_lines
              [ "";
                "👨‍⚕️ WHEN TO SEEK MEDICAL HELP";
                "   " ++ help_text;
                "";
                "🏥 RECOMMENDED ACTION";
                "   " ++ action_text;
                "";
                (if more_than_one : bool then next_steps else "");
                "";
                rule;
                "⚖️ MEDICAL DISCLAIMER";
                "   " ++ disclaimer_text;
                rule ])))))).
Proof.
  intros T S Pr.
  assert (In_fields : forall name, In name printed_fields ->
                                   printable (field props name) = true)
    by (intros name; now apply prints_field).
  assert (Ft : field props "first_aid_tips" = VArr tips)
    by (unfold field; now rewrite T).
  assert (Fs : field props "warning_signs" = VArr signs)
    by (unfold field; now rewrite S).
  assert (P1 : printable (field props "severity_score") = true)
    by (apply In_fields; cbn [printed_fields In]; auto 12).
  assert (P2 : printable (field props "urgency") = true)
    by (apply In_fields; cbn [printed_fields In]; auto 12).
  assert (P3 : printable (field props "primary_assessment") = true)
    by (apply In_fields; cbn [printed_fields In]; auto 12).
  assert (P4 : printable (VArr tips) = true)
    by (rewrite <- Ft; apply In_fields; cbn [printed_fields In]; auto 12).
  assert (P5 : printable (VArr signs) = true)
    by (rewrite <- Fs; apply In_fields; cbn [printed_fields In]; auto 12).
  assert (P6 : printable (field props "when_to_seek_help") = true)
    by (apply In_fields; cbn [printed_fields In]; auto 12).
  assert (P7 : printable (field props "recommended_action") = true)
    by (apply In_fields; cbn [printed_fields In]; auto 12).
  assert (P8 : printable (field props "disclaimer") = true)
    by (apply In_fields; cbn [printed_fields In]; auto 12).
  destruct (getSeverityEmoji_printable _ P1) as [severityEmoji E1].
  destruct (getUrgencyIndicator_printable _ P2) as [urgencyColor E2].
  destruct (toString_printable _ P1) as [score_text E3].
  destruct (toString_printable _ P2) as [urgency_text E4].
  destruct (toString_printable _ P3) as [assessment_text E5].
  destruct (map_lines_printable "   ✓ " tips P4) as [tip_lines E6].
  destruct (map_lines_printable "   🚨 " signs P5) as [sign_lines E7].
  destruct (toString_printable _ P6) as [help_text E8].
  destruct (toString_printable _ P7) as [action_text E9].
  destruct (js_gt_printable _ 1 P1) as [more_than_one E10].
  destruct (toString_printable _ P8) as [disclaimer_text E11].
  exists severityEmoji, urgencyColor, score_text, urgency_text, assessment_text,
         tip_lines, sign_lines, help_text, action_text, more_than_one, disclaimer_text.
  repeat (split; [assumption|]).
  unfold formatSymptomAnalysis. rewrite !Get_object. cbn [bind].
  fold (field props "severity_score") (field props "urgency")
       (field props "primary_assessment") (field props "first_aid_tips")
       (field props "warning_signs") (field props "when_to_seek_help")
       (field props "recommended_action") (field props "disclaimer").
  rewrite Ft, Fs, E1. cbn [bind]. rewrite E2. cbn [bind]. rewrite E3. cbn [bind].
  rewrite E4. cbn [bind]. rewrite E5. cbn [bind]. rewrite E6. cbn [bind].
  rewrite E7. cbn [bind]. rewrite E8. cbn [bind]. rewrite E9. cbn [bind].
  rewrite E10. cbn [bind]. rewrite E11. cbn [bind]. reflexivity.
Qed.

(** On an object whose two list fields are arrays and whose printed
    properties are printable the report is built. *)
Lemma formatSymptomAnalysis_object (props : list (string * value)) (tips signs : list value) :
  own_property "first_aid_tips" props = Some (VArr tips) ->
  own_property "warning_signs" props = Some (VArr signs) ->
  prints props = true ->
  exists report, formatSymptomAnalysis (VObj props) = Normal report.
Proof.
  intros T S Pr.
  destruct (formatSymptomAnalysis_report props tips signs T S Pr)
    as (? & ? & ? & ? & ? & ? & ? & ? & ? & ? & ? & _ & _ & _ & _ & _ & F).
  eauto.
Qed.

(** Without the list of first aid tips the formatter throws. *)
Lemma formatSymptomAnalysis_without_tips (props : list (string * value)) :
  own_property "first_aid_tips" props = None ->
  exists e, formatSymptomAnalysis (VObj props) = Throw e.
Proof.
  intros T. unfold formatSymptomAnalysis.
  rewrite !Get_object. rewrite T. cbn [bind].
  change (map_lines "   ✓ " VUndefined)
    with (@Throw (list string)
            (TypeError "Cannot read properties of undefined (reading 'map')")).
  formatter_throws.
Qed.

(** An object with a property named [toString], in place of a printed
    property, makes the formatter throw. *)
Lemma formatSymptomAnalysis_unprintable (props : list (string * value)) :
  prints props = false ->
  exists e, formatSymptomAnalysis (VObj props) = Throw e.
Proof.
  intros Pr. unfold prints, printed_fields in Pr. cbn [forallb] in Pr.
  unfold formatSymptomAnalysis. rewrite !Get_object. cbn [bind].
  fold (field props "severity_score") (field props "urgency")
       (field props "primary_assessment") (field props "first_aid_tips")
       (field props "warning_signs") (field props "when_to_seek_help")
       (field props "recommended_action") (field props "disclaimer").
  destruct (printable (field props "severity_score")) eqn:P1;
    [|destruct (getSeverityEmoji_unprintable _ P1) as [e ->]; eauto].
  destruct (getSeverityEmoji (field props "severity_score")); cbn [bind]; [|eauto].
  destruct (printable (field props "urgency")) eqn:P2.
  2:{ destruct (toString_unprintable _ P2) as [e E].
      unfold getUrgencyIndicator. rewrite E. cbn [bind]. eauto. }
  destruct (getUrgencyIndicator (field props "urgency")); cbn [bind]; [|eauto].
  destruct (toString (field props "severity_score")); cbn [bind]; [|eauto].
  destruct (toString (field props "urgency")); cbn [bind]; [|eauto].
  destruct (printable (field props "primary_assessment")) eqn:P3;
    [|destruct (toString_unprintable _ P3) as [e ->]; eauto].
  destruct (toString (field props "primary_assessment")); cbn [bind]; [|eauto].
  destruct (printable (field props "first_aid_tips")) eqn:P4.
  2:{ destruct (field props "first_aid_tips") as [ | |b|n|t|elems|ps] eqn:Ft;
        try discriminate P4; [|cbn [map_lines bind]; eauto].
      cbn [printable] in P4. apply forallb_false in P4 as (x & Hx & Px).
      destruct (toString_unprintable x Px) as [e E].
      edestruct (traverse_throws
                   (fun x => bind (toString x) (fun s => Normal ("   ✓ " ++ s)))
                   elems x e Hx) as [e' E']; [now rewrite E|].
      cbn [map_lines]. rewrite E'. cbn [bind]. eauto. }
  destruct (map_lines "   ✓ " (field props "first_aid_tips")); cbn [bind]; [|eauto].
  destruct (printable (field props "warning_signs")) eqn:P5.
  2:{ destruct (field props "warning_signs") as [ | |b|n|t|elems|ps] eqn:Fs;
        try discriminate P5; [|cbn [map_lines bind]; eauto].
      cbn [printable] in P5. apply forallb_false in P5 as (x & Hx & Px).
      destruct (toString_unprintable x Px) as [e E].
      edestruct (traverse_throws
                   (fun x => bind (toString x) (fun s => Normal ("   🚨 " ++ s)))
                   elems x e Hx) as [e' E']; [now rewrite E|].
      cbn [map_lines]. rewrite E'. cbn [bind]. eauto. }
  destruct (map_lines "   🚨 " (field props "warning_signs")); cbn [bind]; [|eauto].
  destruct (printable (field props "when_to_seek_help")) eqn:P6;
    [|destruct (toString_unprintable _ P6) as [e ->]; eauto].
  destruct (toString (field props "when_to_seek_help")); cbn [bind]; [|eauto].
  destruct (printable (field props "recommended_action")) eqn:P7;
    [|destruct (toString_unprintable _ P7) as [e ->]; eauto].
  destruct (toString (field props "recommended_action")); cbn [bind]; [|eauto].
  destruct (js_gt (field props "severity_score") 1); cbn [bind]; [|eauto].
  destruct (printable (field props "disclaimer")) eqn:P8;
    [|destruct (toString_unprintable _ P8) as [e ->]; eauto].
  discriminate Pr.
Qed.

(** Without an array in each of its two lists the formatter throws. *)
Lemma formatSymptomAnalysis_needs_lists (props : list (string * value)) :
  is_array (field props "first_aid_tips") = false
  \/ is_array (field props "warning_signs") = false ->
  exists e, formatSymptomAnalysis (VObj props) = Throw e.
Proof.
  intros A. unfold formatSymptomAnalysis. rewrite !Get_object. cbn [bind].
  fold (field props "first_aid_tips") (field props "warning_signs").
  destruct A as [A|A].
  - destruct (field props "first_aid_tips"); try discriminate A;
      formatter_throws.
  - destruct (field props "warning_signs"); try discriminate A;
      formatter_throws.
Qed.

(** The formatter returns a report exactly on the objects whose two lists
    are arrays and whose printed properties are printable. *)
Lemma formatSymptomAnalysis_returns_iff (props : list (string * value)) :
  (exists report, formatSymptomAnalysis (VObj props) = Normal report)
  <-> is_array (field props "first_aid_tips") = true
      /\ is_array (field props "warning_signs") = true
      /\ prints props = true.
Proof.
  split.
  - intros [report F].
    destruct (is_array (field props "first_aid_tips")) eqn:A1.
    2:{ destruct (formatSymptomAnalysis_needs_lists props (or_introl A1)) as [e E].
        congruence. }
    destruct (is_array (field props "warning_signs")) eqn:A2.
    2:{ destruct (formatSymptomAnalysis_needs_lists props (or_intror A2)) as [e E].
        congruence. }
    destruct (prints props) eqn:Pr; [auto|].
    destruct (formatSymptomAnalysis_unprintable props Pr) as [e E]. congruence.
  - intros (A1 & A2 & Pr). unfold field in A1, A2.
    destruct (own_property "first_aid_tips" props) as [[ | | | | |tips|]|] eqn:T;
      try discriminate A1.
    destruct (own_property "warning_signs" props) as [[ | | | | |signs|]|] eqn:S;
      try discriminate A2.
    apply (formatSymptomAnalysis_object props tips signs T S Pr).
Qed.

(** When the formatter throws, on a missing list for one, the inner
    [catch] answers with the fallback result. *)
Lemma fallback_when_formatter_throws
      (query text span : string) (jsonData : value) (e : exn) :
  jsonMatch text = Some span ->
  JSON_parse span = Normal jsonData ->
  formatSymptomAnalysis jsonData = Throw e ->
  queryNLPService query (Responded text) = Normal (fallback_result query text).
Proof.
  intros M P F. rewrite queryNLPService_responded.
  unfold parse_response. rewrite M, P. cbn [bind]. rewrite F. reflexivity.
Qed.

(** C6 (as amended).  When the span parses as a JSON object whose
    [first_aid_tips] and [warning_signs] are arrays and whose printed
    properties are printable (none of them is an object with a property
    named [toString], or an array with such an element), the result
    carries the report of [formatSymptomAnalysis]; its severity score is
    the object's numeric [severity_score], unchanged; and an absent
    [severity_score], [urgency] or [recommended_action] is defaulted to
    0, 'Routine' and the empty string. *)
Theorem structured_result_from_json
        (query text span : string) (props : list (string * value))
        (tips signs : list value) :
  jsonMatch text = Some span ->
  JSON_parse span = Normal (VObj props) ->
  own_property "first_aid_tips" props = Some (VArr tips) ->
  own_property "warning_signs" props = Some (VArr signs) ->
  prints props = true ->
  exists report severityScore urgency recommendedAction,
    queryNLPService query (Responded text)
    = Normal (result report severityScore urgency recommendedAction)
    /\ formatSymptomAnalysis (VObj props) = Normal report
    /\ (forall n, own_property "severity_score" props = Some (VNum n) -> n <> NaN ->
          (exists n', severityScore = VNum n' /\ number_eqb n' n = true)
          /\ (truthy (VNum n) = true -> severityScore = VNum n))
    /\ (own_property "severity_score" props = None -> severityScore = VNum (Fin 0))
    /\ (forall u, own_property "urgency" props = Some (VStr u) -> u <> "" ->
          urgency = VStr u)
    /\ (own_property "urgency" props = None -> urgency = VStr "Routine")
    /\ (forall a, own_property "recommended_action" props = Some (VStr a) ->
          recommendedAction = VStr a)
    /\ (own_property "recommended_action" props = None -> recommendedAction = VStr "").
Proof.
  intros M P T S Pr.
  destruct (formatSymptomAnalysis_object props tips signs T S Pr) as [report F].
  do 4 eexists. split; [|split; [exact F|]].
  - rewrite queryNLPService_responded.
    rewrite (parse_response_object query text span report props M P F).
    reflexivity.
  - repeat apply conj.
    + intros n -> N. split.
      * unfold js_or. destruct n as [|q|negative]; [contradiction| |].
        -- simpl. destruct (is_zero q) eqn:Z; simpl.
           ++ exists (Fin 0). split; [reflexivity|].
              unfold is_zero in Z. simpl.
              apply Qeq_bool_iff. symmetry. now apply Qeq_bool_iff.
           ++ exists (Fin q). split; [reflexivity|]. apply Qeq_bool_refl.
        -- exists (Inf negative). split; [reflexivity|].
           simpl. now destruct negative.
      * intros Z. now apply js_or_truthy.
    + intros ->. reflexivity.
    + intros u -> Hu. apply js_or_truthy. simpl.
      destruct (String.eqb_spec u ""); [contradiction|reflexivity].
    + intros ->. reflexivity.
    + intros a ->. unfold js_or. simpl.
      destruct (String.eqb_spec a ""); [subst|]; reflexivity.
    + intros ->. reflexivity.
Qed.


(** C8 (as amended).  On a failure of the service the message is chosen
    by what the error's message includes, in this order: 'quota', then
    '404', then '401', else the generic message; the result has severity
    score 5, urgency 'Same Day' and recommended action 'Book an
    appointment soon to discuss your symptoms', and the canned report
    includes the chosen message. *)
Theorem service_failure_classified (query : string) (error : exn) :
  exists errorMessage,
    queryNLPService query (Failed error)
    = Normal (result (formatErrorResponse query errorMessage)
                     (VNum (Fin 5)) (VStr "Same Day")
                     (VStr "Book an appointment soon to discuss your symptoms"))
    /\ includes (formatErrorResponse query errorMessage) errorMessage = true
    /\ (message_includes error "quota" = true ->
          errorMessage = "AI service quota exceeded. Please try again later")
    /\ (message_includes error "quota" = false ->
        message_includes error "404" = true ->
          errorMessage = "AI model temporarily unavailable")
    /\ (message_includes error "quota" = false ->
        message_includes error "404" = false ->
        message_includes error "401" = true ->
          errorMessage = "AI service authentication failed")
    /\ (message_includes error "quota" = false ->
        message_includes error "404" = false ->
        message_includes error "401" = false ->
          errorMessage = "AI service temporarily unavailable").
Proof.
  exists (errorMessage_of error).
  split; [reflexivity|split; [apply formatErrorResponse_includes|]].
  unfold errorMessage_of.
  repeat apply conj; intros; repeat match goal with H : _ = _ |- _ => rewrite H end;
    reflexivity.
Qed.
End NlpServiceClaims.

(** ** The symptom-check handler *)

Section ControllerClaims.
Context {rt : Runtime}.
Import SymptomController.

(** C10.  For a result that is neither [undefined] nor [null] the handler
    answers 200; the message is the result's [formattedMessage] if
    truthy, else its [message] if truthy, else the result itself; a
    missing or falsy [severityScore], [urgency] or [recommendedAction]
    becomes 0, 'Routine' or the empty string.  So a plain string is
    answered with itself as the message, severity score 0 and urgency
    'Routine'. *)
Theorem checkSymptoms_coerces_falsy_fields (result : value) :
  defined result ->
  exists formattedMessage message severityScore urgency recommendedAction,
    Get result "formattedMessage" = Normal formattedMessage
    /\ Get result "message" = Normal message
    /\ Get result "severityScore" = Normal severityScore
    /\ Get result "urgency" = Normal urgency
    /\ Get result "recommendedAction" = Normal recommendedAction
    /\ respond (Normal result)
       = {| status_code := 200;
            body := VObj
              [ ("message",
                 if truthy formattedMessage then formattedMessage
                 else if truthy message then message
                 else result);
                ("severityScore",
                 if truthy severityScore then severityScore else VNum (Fin 0));
                ("urgency",
                 if truthy urgency then urgency else VStr "Routine");
                ("recommendedAction",
                 if truthy recommendedAction then recommendedAction else VStr "") ] |}
    /\ (forall s, result = VStr s ->
          respond (Normal result)
          = {| status_code := 200;
               body := VObj [ ("message", VStr s);
                              ("severityScore", VNum (Fin 0));
                              ("urgency", VStr "Routine");
                              ("recommendedAction", VStr "") ] |}).
Proof.
  intros D.
  destruct (Get_defined result "formattedMessage" D) as [fm Hfm].
  destruct (Get_defined result "message" D) as [m Hm].
  destruct (Get_defined result "severityScore" D) as [s Hs].
  destruct (Get_defined result "urgency" D) as [u Hu].
  destruct (Get_defined result "recommendedAction" D) as [a Ha].
  exists fm, m, s, u, a. repeat apply conj; try assumption.
  - unfold respond. cbn [bind]. rewrite Hfm, Hm, Hs, Hu, Ha. cbn [bind].
    unfold js_or. destruct (truthy fm) eqn:E; [rewrite E|]; reflexivity.
  - intros t ->. unfold respond. cbn. unfold js_or. cbn.
    destruct (t =? ""); reflexivity.
Qed.

(** On the result of [queryNLPService] the handler always answers 200. *)
Lemma checkSymptoms_ok (symptoms : string) (service : NlpService.ServiceOutcome) :
  status_code (checkSymptoms symptoms service) = 200%Z.
Proof.
  unfold checkSymptoms.
  destruct (queryNLPService_returns symptoms service)
    as (r & -> & (fm & s & u & a & -> & _)).
  reflexivity.
Qed.
End ControllerClaims.

(** ** The appointment schema *)

Section AppointmentClaims.
Import AppointmentModel.

Lemma save_invalid (collection : gmap nat Appointment) (id : nat) (doc : Appointment) :
  validate doc <> [] ->
  save collection id doc = (collection, ValidationError (validate doc)).
Proof.
  unfold save. destruct (validate doc); [congruence|reflexivity].
Qed.

Lemma save_valid (collection : gmap nat Appointment) (id : nat) (doc : Appointment) :
  validate doc = [] ->
  save collection id doc = (<[id := doc]> collection, Saved id doc).
Proof. unfold save. now intros ->. Qed.

Lemma save_Saved (collection c' : gmap nat Appointment) (id id' : nat) (doc doc' : Appointment) :
  save collection id doc = (c', Saved id' doc') ->
  validate doc = [] /\ id' = id /\ doc' = doc /\ c' = <[id := doc]> collection.
Proof.
  unfold save. destruct (validate doc); [|discriminate].
  intros [= <- <- <-]. auto.
Qed.

Lemma validate_nil (doc : Appointment) :
  validate doc = [] <->
  validate_before doc = [] /\ validate_urgencyLevel doc = [] /\ validate_after doc = [].
Proof.
  unfold validate. split.
  - intros H. apply List.app_eq_nil in H as [H1 H2].
    apply List.app_eq_nil in H2 as [H2 H3]. auto.
  - intros (-> & -> & ->). reflexivity.
Qed.

(** The gate: a level other than 'Routine' on a document that does not
    come from the symptom checker is an error of the path. *)
Lemma gate_error (doc : Appointment) (level : string) :
  urgencyLevel doc = Some level ->
  level <> "Routine" ->
  this_fromSymptomChecker doc = false ->
  validate_urgencyLevel doc
  = if member level urgencyLevel_enum
    then [Custom "urgencyLevel" urgencyLevel_message]
    else [Enum "urgencyLevel" level].
Proof.
  intros L NR F. unfold validate_urgencyLevel, urgencyLevel_validator.
  rewrite L, F. destruct (member level urgencyLevel_enum); [|reflexivity].
  destruct (String.eqb_spec level "Routine"); [contradiction|reflexivity].
Qed.

Lemma gate_open (doc : Appointment) (level : string) :
  urgencyLevel doc = Some level ->
  this_fromSymptomChecker doc = true ->
  member level urgencyLevel_enum = true ->
  validate_urgencyLevel doc = [].
Proof.
  intros L F M. unfold validate_urgencyLevel, urgencyLevel_validator.
  now rewrite L, F, M.
Qed.

(** C1.  A write, creation or update, whose proposed document has an
    urgency level other than 'Routine' while its [fromSymptomChecker] is
    false is rejected with a ValidationError that carries an error of
    the path [urgencyLevel] (the validator's own message when the level
    is one of the schema's), and the collection is unchanged.  When
    [fromSymptomChecker] is true the validator accepts every level, and
    every level of the schema passes the path, so that the write is
    stored when the other paths are valid. *)
Theorem urgency_gate
        (collection : gmap nat Appointment) (w : Write)
        (id : nat) (doc : Appointment) (level : string) :
  proposed collection w = Some (id, doc) ->
  urgencyLevel doc = Some level ->
  (level <> "Routine" -> this_fromSymptomChecker doc = false ->
     exists errors,
       write collection w = (collection, ValidationError errors)
       /\ (exists e, In e errors /\ error_path e = "urgencyLevel")
       /\ (member level urgencyLevel_enum = true ->
             In (Custom "urgencyLevel" urgencyLevel_message) errors))
  /\ (this_fromSymptomChecker doc = true ->
        urgencyLevel_validator doc level = true
        /\ (member level urgencyLevel_enum = true ->
              validate_urgencyLevel doc = []
              /\ (validate_before doc = [] -> validate_after doc = [] ->
                    write collection w = (<[id := doc]> collection, Saved id doc)))).
Proof.
  intros P L. unfold write. rewrite P. split.
  - intros NR F. pose proof (gate_error doc level L NR F) as G.
    assert (NE : validate_urgencyLevel doc <> []).
    { rewrite G. destruct (member level urgencyLevel_enum); discriminate. }
    exists (validate doc). split; [|split].
    + apply save_invalid. intros E. apply validate_nil in E as (_ & E & _).
      contradiction.
    + unfold validate.
      destruct (member level urgencyLevel_enum).
      * exists (Custom "urgencyLevel" urgencyLevel_message). split; [|reflexivity].
        rewrite G. apply in_or_app. right. now left.
      * exists (Enum "urgencyLevel" level). split; [|reflexivity].
        rewrite G. apply in_or_app. right. now left.
    + intros M. rewrite M in G. unfold validate. rewrite G.
      apply in_or_app. right. now left.
  - intros F. split.
    + unfold urgencyLevel_validator. now rewrite F.
    + intros M. split; [now apply (gate_open doc level)|].
      intros B A. apply save_valid. apply validate_nil.
      repeat split; try assumption. now apply (gate_open doc level).
Qed.

Lemma new_document_flag (fields : Appointment) :
  this_fromSymptomChecker (new_document fields) = this_fromSymptomChecker fields.
Proof.
  unfold this_fromSymptomChecker, new_document. simpl.
  now destruct (fromSymptomChecker fields).
Qed.

(** C2 (as amended).  On a creation whose [fromSymptomChecker] is false
    or omitted: a submitted urgency level other than 'Routine' is
    rejected with a ValidationError and nothing is stored; a record that
    is created has urgency level 'Routine' and the urgency score that was
    submitted, 0 when none was; and with the level 'Routine' or omitted
    and the other paths valid the record is created. *)
Theorem creation_without_symptom_checker
        (collection : gmap nat Appointment) (fields : Appointment) :
  this_fromSymptomChecker fields = false ->
  (forall level, urgencyLevel fields = Some level -> level <> "Routine" ->
     exists errors,
       write collection (Create fields) = (collection, ValidationError errors)
       /\ errors <> [])
  /\ (forall c' id doc,
        write collection (Create fields) = (c', Saved id doc) ->
        urgencyLevel doc = Some "Routine"
        /\ urgencyScore doc
           = Some (match urgencyScore fields with Some s => s | None => 0%Q end)
        /\ c' !! id = Some doc)
  /\ (urgencyLevel fields = None \/ urgencyLevel fields = Some "Routine" ->
      validate_before (new_document fields) = [] ->
      validate_after (new_document fields) = [] ->
      exists id,
        write collection (Create fields)
        = (<[id := new_document fields]> collection, Saved id (new_document fields))).
Proof.
  intros F. rewrite <- new_document_flag in F.
  unfold write, proposed. repeat apply conj.
  - intros level L NR.
    assert (L' : urgencyLevel (new_document fields) = Some level)
      by (simpl; now rewrite L).
    pose proof (gate_error _ level L' NR F) as G.
    assert (NE : validate (new_document fields) <> []).
    { intros E. apply validate_nil in E as (_ & E & _). rewrite G in E.
      destruct (member level urgencyLevel_enum); discriminate. }
    exists (validate (new_document fields)). split; [|exact NE].
    now apply save_invalid.
  - intros c' id doc S. apply save_Saved in S as (V & -> & -> & ->).
    split; [|split].
    + apply validate_nil in V as (_ & V & _).
      destruct (urgencyLevel (new_document fields)) as [level|] eqn:L.
      * destruct (String.eqb_spec level "Routine") as [->|NR]; [reflexivity|].
        rewrite (gate_error _ level L NR F) in V.
        destruct (member level urgencyLevel_enum); discriminate.
      * simpl in L. destruct (urgencyLevel fields); discriminate.
    + simpl. now destruct (urgencyScore fields).
    + apply lookup_insert_eq.
  - intros L B A. exists (fresh (dom collection)).
    apply save_valid. apply validate_nil. repeat split; try assumption.
    assert (UL : urgencyLevel (new_document fields) = Some "Routine")
      by (destruct L as [L|L]; simpl; rewrite L; reflexivity).
    unfold validate_urgencyLevel, urgencyLevel_validator.
    rewrite UL, F. reflexivity.
Qed.

(** C4 (as amended).  A creation that submits no status gives a document
    whose status is 'confirmed', the default of the schema: that is the
    status of the record that is stored, and it is stored whenever the
    document is valid.  'pending' is one of the statuses of the schema. *)
Theorem new_appointment_is_confirmed
        (collection : gmap nat Appointment) (fields : Appointment) :
  status fields = None ->
  status (new_document fields) = Some "confirmed"
  /\ (validate (new_document fields) = [] ->
        exists id,
          write collection (Create fields)
          = (<[id := new_document fields]> collection, Saved id (new_document fields)))
  /\ (forall c' id doc,
        write collection (Create fields) = (c', Saved id doc) ->
        status doc = Some "confirmed" /\ c' !! id = Some doc)
  /\ member "pending" status_enum = true.
Proof.
  intros S. repeat apply conj.
  - simpl. now rewrite S.
  - intros V. exists (fresh (dom collection)). now apply save_valid.
  - intros c' id doc W. apply save_Saved in W as (_ & -> & -> & ->).
    split; [simpl; now rewrite S | apply lookup_insert_eq].
  - reflexivity.
Qed.
(** C9 (as amended).  On a creation whose [fromSymptomChecker] is true and
    whose other paths are valid, the urgency validator accepts any level;
    the record is stored when the level is one of the schema's enum, and
    otherwise the creation is rejected with the enum's ValidationError and
    nothing is stored.  Of the urgencies of the triage service, 'Routine',
    'Urgent' and 'Emergency' are levels of the enum and 'Same Day' is
    not. *)
Theorem triage_urgency_storable_when_in_enum
        (collection : gmap nat Appointment) (fields : Appointment) (level : string) :
  this_fromSymptomChecker fields = true ->
  urgencyLevel fields = Some level ->
  validate_before (new_document fields) = [] ->
  validate_after (new_document fields) = [] ->
  urgencyLevel_validator (new_document fields) level = true
  /\ (member level urgencyLevel_enum = true ->
        exists id,
          write collection (Create fields)
          = (<[id := new_document fields]> collection, Saved id (new_document fields))
          /\ urgencyLevel (new_document fields) = Some level)
  /\ (member level urgencyLevel_enum = false ->
        write collection (Create fields)
        = (collection, ValidationError [Enum "urgencyLevel" level]))
  /\ List.map (fun urgency => member urgency urgencyLevel_enum)
              (List.map fst NlpService.indicators)
     = [true; false; true; true].
Proof.
  intros F L B A. rewrite <- new_document_flag in F.
  assert (L' : urgencyLevel (new_document fields) = Some level)
    by (simpl; now rewrite L).
  repeat apply conj.
  - unfold urgencyLevel_validator. now rewrite F.
  - intros M. exists (fresh (dom collection)). split; [|exact L'].
    unfold write, proposed. apply save_valid. apply validate_nil.
    repeat split; try assumption. now apply (gate_open _ level).
  - intros M. unfold write, proposed.
    rewrite save_invalid; unfold validate, validate_urgencyLevel;
      rewrite B, A, L', M; [reflexivity|discriminate].
  - reflexivity.
Qed.
End AppointmentClaims.

(** ** The status workflow *)

Section WorkflowClaims.
Import StatusWorkflow.

(** Without a [previousStatus] a change of status cannot be saved at all. *)
Lemma save_without_previousStatus
      (collection : gmap nat Appointment) (id : nat) (stored this : Appointment) :
  collection !! id = Some stored ->
  status this <> status stored ->
  previousStatus this = None ->
  exists e, save collection id this = (collection, Throw e).
Proof.
  intros L N P. unfold save, isModified_status, pre_save. rewrite L, P.
  destruct (String.eqb_spec (status stored) (status this)) as [Eq|_];
    [symmetry in Eq; contradiction|].
  eexists. reflexivity.
Qed.
End WorkflowClaims.

(** * The properties on the sample inputs *)

Section Instances.
Import NlpService SymptomController Samples.
Existing Instance Reference.runtime.

Example jsonMatch_greedy :
  jsonMatch "a {b} c {d} e" = Some "{b} c {d}".
Proof. reflexivity. Qed.

Example jsonMatch_reversed_braces : jsonMatch "} nothing {" = None.
Proof. reflexivity. Qed.

Example parse_reply_json : JSON_parse reply_json = Normal (VObj reply_props).
Proof. vm_compute. reflexivity. Qed.

Example no_valid_json_empty : no_valid_json "".
Proof. left. reflexivity. Qed.

Example no_valid_json_prose : no_valid_json "Please see a doctor.".
Proof. left. reflexivity. Qed.

Lemma fallback_on_invalid_json_witness :
  no_valid_json "{oops}"
  /\ exists report,
       queryNLPService "sore throat" (Responded "{oops}")
       = Normal (result report (VNum (Fin 5)) (VStr "Same Day")
                        (VStr "Book an appointment soon"))
       /\ includes report "sore throat" = true
       /\ includes report "{oops}" = true.
Proof.
  assert (H : no_valid_json "{oops}").
  { right. exists "{oops}", (SyntaxError "Unexpected token in JSON").
    split; reflexivity. }
  split; [exact H|].
  destruct (fallback_on_invalid_json "sore throat" "{oops}" H)
    as (report & E & _ & _ & Iq & It).
  exists report. auto.
Defined.

Lemma structured_result_from_json_witness :
  jsonMatch reply = Some reply_json
  /\ JSON_parse reply_json = Normal (VObj reply_props)
  /\ prints reply_props = true
  /\ exists report urgency recommendedAction,
       queryNLPService "fever" (Responded reply)
       = Normal (result report (VNum (Fin (15 # 2))) urgency recommendedAction)
       /\ urgency = VStr "Urgent"
       /\ recommendedAction = VStr "".
Proof.
  assert (M : jsonMatch reply = Some reply_json) by reflexivity.
  assert (P : JSON_parse reply_json = Normal (VObj reply_props))
    by (vm_compute; reflexivity).
  assert (Pr : prints reply_props = true) by reflexivity.
  split; [exact M|split; [exact P|split; [exact Pr|]]].
  destruct (structured_result_from_json "fever" reply reply_json reply_props
              [VStr "Rest"; VStr "Drink water"] [VStr "Fever above 39"]
              M P eq_refl eq_refl Pr)
    as (report & s & u & a & E & _ & Hs & _ & Hu & _ & _ & Ha).
  exists report, u, a.
  destruct (Hs (Fin (15 # 2)) eq_refl) as [_ Hs']; [discriminate|].
  rewrite <- (Hs' eq_refl).
  split; [exact E|split].
  - apply Hu; [reflexivity|discriminate].
  - apply Ha. reflexivity.
Defined.

(** The claim C6 as stated fails on an object that has the severity score
    and no list of tips: the formatter throws on the missing list, the
    inner [catch] answers with the fallback, and the score 7 is lost. *)
Lemma severity_lost_without_tips :
  jsonMatch reply_score_only = Some reply_score_only
  /\ JSON_parse reply_score_only = Normal (VObj [("severity_score", VNum (Fin 7))])
  /\ queryNLPService "fever" (Responded reply_score_only)
     = Normal (result (formatFallbackResponse "fever" reply_score_only)
                      (VNum (Fin 5)) (VStr "Same Day")
                      (VStr "Book an appointment soon"))
  /\ number_eqb (Fin 5) (Fin 7) = false
  /\ VStr "Same Day" <> VStr "Routine"
  /\ VStr "Book an appointment soon" <> VStr "".
Proof.
  repeat apply conj; try discriminate; vm_compute; reflexivity.
Qed.

Lemma service_failure_classified_witness :
  message_includes quota_error "quota" = true
  /\ exists report,
       queryNLPService "mild headache since this morning" (Failed quota_error)
       = Normal (result report (VNum (Fin 5)) (VStr "Same Day")
                        (VStr "Book an appointment soon to discuss your symptoms"))
       /\ includes report "AI service quota exceeded. Please try again later" = true.
Proof.
  assert (Q : message_includes quota_error "quota" = true) by reflexivity.
  split; [exact Q|].
  destruct (service_failure_classified "mild headache since this morning" quota_error)
    as (m & E & I & Hq & _).
  rewrite (Hq Q) in E, I. eexists. split; [exact E|exact I].
Defined.

(** The claim C8 as stated fails on the recommended action: on a quota
    failure it is not 'Book an appointment soon'. *)
Lemma failure_recommended_action_differs :
  exists report,
    queryNLPService "mild headache since this morning" (Failed quota_error)
    = Normal (result report (VNum (Fin 5)) (VStr "Same Day")
                     (VStr "Book an appointment soon to discuss your symptoms"))
    /\ VStr "Book an appointment soon to discuss your symptoms"
       <> VStr "Book an appointment soon".
Proof. eexists. split; [reflexivity|discriminate]. Qed.

Lemma checkSymptoms_coerces_falsy_fields_witness :
  defined (VStr "Rest and drink water.")
  /\ respond (Normal (VStr "Rest and drink water."))
     = {| status_code := 200;
          body := VObj [ ("message", VStr "Rest and drink water.");
                         ("severityScore", VNum (Fin 0));
                         ("urgency", VStr "Routine");
                         ("recommendedAction", VStr "") ] |}.
Proof.
  assert (D : defined (VStr "Rest and drink water.")) by (split; discriminate).
  split; [exact D|].
  destruct (checkSymptoms_coerces_falsy_fields (VStr "Rest and drink water.") D)
    as (fm & m & s & u & a & _ & _ & _ & _ & _ & _ & H).
  exact (H _ eq_refl).
Defined.

Example checkSymptoms_on_object :
  respond (Normal (VObj [ ("message", VStr "ok"); ("severityScore", VNum (Fin 0));
                          ("urgency", VStr "") ]))
  = {| status_code := 200;
       body := VObj [ ("message", VStr "ok");
                      ("severityScore", VNum (Fin 0));
                      ("urgency", VStr "Routine");
                      ("recommendedAction", VStr "") ] |}.
Proof. reflexivity. Qed.

Example checkSymptoms_on_undefined :
  status_code (respond (Normal VUndefined)) = 500%Z.
Proof. reflexivity. Qed.
End Instances.

Section AppointmentInstances.
Import AppointmentModel Samples.

Lemma urgency_gate_witness :
  proposed ∅ (Create (booking (Some "Urgent") (Some 7%Q) (Some false)))
  = Some (0%nat, new_document (booking (Some "Urgent") (Some 7%Q) (Some false)))
  /\ (exists errors,
        write ∅ (Create (booking (Some "Urgent") (Some 7%Q) (Some false)))
        = (∅, ValidationError errors)
        /\ In (Custom "urgencyLevel" urgencyLevel_message) errors)
  /\ write ∅ (Create (booking (Some "Emergency") (Some 9%Q) (Some true)))
     = (<[0%nat := new_document (booking (Some "Emergency") (Some 9%Q) (Some true))]> ∅,
        Saved 0%nat (new_document (booking (Some "Emergency") (Some 9%Q) (Some true)))).
Proof.
  assert (P1 : proposed ∅ (Create (booking (Some "Urgent") (Some 7%Q) (Some false)))
               = Some (0%nat, new_document (booking (Some "Urgent") (Some 7%Q) (Some false))))
    by reflexivity.
  assert (P2 : proposed ∅ (Create (booking (Some "Emergency") (Some 9%Q) (Some true)))
               = Some (0%nat, new_document (booking (Some "Emergency") (Some 9%Q) (Some true))))
    by reflexivity.
  split; [exact P1|split].
  - destruct (urgency_gate _ _ _ _ "Urgent" P1 eq_refl) as [G _].
    destruct G as (errors & W & _ & I); [discriminate|reflexivity|].
    exists errors. split; [exact W|exact (I eq_refl)].
  - destruct (urgency_gate _ _ _ _ "Emergency" P2 eq_refl) as [_ G].
    destruct (G eq_refl) as [_ G'].
    destruct (G' eq_refl) as [_ W]. exact (W eq_refl eq_refl).
Defined.

(** The gate on an update: a stored routine record cannot be given the
    level 'Urgent'. *)
Example urgency_gate_on_update :
  let stored := new_document (booking None None None) in
  write (<[3%nat := stored]> ∅) (Update 3%nat (changes "Urgent" None))
  = (<[3%nat := stored]> ∅, ValidationError [Custom "urgencyLevel" urgencyLevel_message]).
Proof. reflexivity. Qed.

(** An update that sets the level and the flag together is stored. *)
Example urgency_with_flag_on_update :
  let stored := new_document (booking None None None) in
  exists doc,
    write (<[3%nat := stored]> ∅) (Update 3%nat (changes "Urgent" (Some true)))
    = (<[3%nat := doc]> (<[3%nat := stored]> ∅), Saved 3%nat doc)
    /\ urgencyLevel doc = Some "Urgent" /\ fromSymptomChecker doc = Some true.
Proof. eexists. repeat split. Qed.

Lemma creation_without_symptom_checker_witness :
  this_fromSymptomChecker (booking (Some "Routine") (Some 7%Q) None) = false
  /\ exists id,
       write ∅ (Create (booking (Some "Routine") (Some 7%Q) None))
       = (<[id := new_document (booking (Some "Routine") (Some 7%Q) None)]> ∅,
          Saved id (new_document (booking (Some "Routine") (Some 7%Q) None))).
Proof.
  split; [reflexivity|].
  destruct (creation_without_symptom_checker ∅
              (booking (Some "Routine") (Some 7%Q) None) eq_refl) as (_ & _ & C).
  apply C; [right|..]; reflexivity.
Defined.

(** The claim C2 as stated fails twice over: without the symptom checker
    a submitted level 'Urgent' is rejected, not stored as 'Routine', and a
    submitted score 7 is stored as 7, not as 0. *)
Lemma urgency_not_coerced :
  this_fromSymptomChecker (booking (Some "Urgent") (Some 7%Q) (Some false)) = false
  /\ write ∅ (Create (booking (Some "Urgent") (Some 7%Q) (Some false)))
     = (∅, ValidationError [Custom "urgencyLevel" urgencyLevel_message])
  /\ this_fromSymptomChecker (booking (Some "Routine") (Some 7%Q) (Some false)) = false
  /\ (exists doc,
        write ∅ (Create (booking (Some "Routine") (Some 7%Q) (Some false)))
        = (<[0%nat := doc]> ∅, Saved 0%nat doc)
        /\ urgencyScore doc = Some 7%Q
        /\ Qeq_bool 7 0 = false).
Proof.
  repeat apply conj; try reflexivity.
  eexists. repeat apply conj; reflexivity.
Qed.

Lemma new_appointment_is_confirmed_witness :
  status (booking None None None) = None
  /\ exists id doc,
       write ∅ (Create (booking None None None)) = (<[id := doc]> ∅, Saved id doc)
       /\ status doc = Some "confirmed".
Proof.
  split; [reflexivity|].
  destruct (new_appointment_is_confirmed ∅ (booking None None None) eq_refl)
    as (S & W & _).
  destruct (W eq_refl) as [id E].
  exists id, (new_document (booking None None None)). split; [exact E|exact S].
Defined.

(** The claim C4 as stated fails: a new appointment starts 'confirmed',
    not 'pending'. *)
Lemma new_appointment_not_pending :
  exists doc,
    write ∅ (Create (booking None None None)) = (<[0%nat := doc]> ∅, Saved 0%nat doc)
    /\ status doc = Some "confirmed"
    /\ status doc <> Some "pending".
Proof. eexists. repeat apply conj; [reflexivity|reflexivity|discriminate]. Qed.

Lemma triage_urgency_storable_when_in_enum_witness :
  this_fromSymptomChecker (booking (Some "Urgent") (Some 8%Q) (Some true)) = true
  /\ (exists id doc,
        write ∅ (Create (booking (Some "Urgent") (Some 8%Q) (Some true)))
        = (<[id := doc]> ∅, Saved id doc)
        /\ urgencyLevel doc = Some "Urgent")
  /\ write ∅ (Create (booking (Some "Same Day") (Some 5%Q) (Some true)))
     = (∅, ValidationError [Enum "urgencyLevel" "Same Day"]).
Proof.
  split; [reflexivity|split].
  - destruct (triage_urgency_storable_when_in_enum ∅
                (booking (Some "Urgent") (Some 8%Q) (Some true)) "Urgent"
                eq_refl eq_refl eq_refl eq_refl) as (_ & S & _).
    destruct (S eq_refl) as (id & W & L). eauto.
  - destruct (triage_urgency_storable_when_in_enum ∅
                (booking (Some "Same Day") (Some 5%Q) (Some true)) "Same Day"
                eq_refl eq_refl eq_refl eq_refl) as (_ & _ & R & _).
    exact (R eq_refl).
Defined.

(** The claim C9 as stated fails: the urgency 'Same Day' that the triage
    client returns on a failure of the service is not a level of the
    schema; booking with it, [fromSymptomChecker] being true, passes the
    urgency validator, is rejected by the enum, and nothing is stored. *)
Lemma same_day_is_not_storable :
  (exists report action,
     NlpService.queryNLPService (rt := Reference.runtime)
       "mild headache since this morning" (NlpService.Failed quota_error)
     = Normal (NlpService.result report (VNum (Fin 5)) (VStr "Same Day") action))
  /\ urgencyLevel_validator (booking (Some "Same Day") (Some 5%Q) (Some true)) "Same Day" = true
  /\ member "Same Day" urgencyLevel_enum = false
  /\ write ∅ (Create (booking (Some "Same Day") (Some 5%Q) (Some true)))
     = (∅, ValidationError [Enum "urgencyLevel" "Same Day"]).
Proof.
  split; [do 2 eexists; reflexivity|].
  repeat apply conj; reflexivity.
Qed.
End AppointmentInstances.

Section WorkflowInstances.
Import StatusWorkflow Samples MoreSamples.


Example approved_to_completed_is_legal :
  let approved := {| status := "approved"; previousStatus := Some "pending" |} in
  let done := {| status := "completed"; previousStatus := Some "approved" |} in
  save (<[7%nat := approved]> ∅) 7%nat done = (<[7%nat := done]> (<[7%nat := approved]> ∅), Normal tt).
Proof. reflexivity. Qed.

End WorkflowInstances.

(** * Further properties of the code *)

(** ** The brace span of a reply *)

Lemma from_first_append (c : ascii) (a r : string) :
  exists m, NlpService.from_first c (a ++ String c r) = Some (String c (m ++ r)).
Proof.
  induction a as [|x a IH].
  - exists EmptyString. simpl. now rewrite Ascii.eqb_refl.
  - rewrite append_cons. simpl. destruct (Ascii.eqb_spec x c) as [->|N].
    + exists (a ++ String c EmptyString). now rewrite append_assoc.
    + exact IH.
Qed.

Lemma upto_last_append (c : ascii) (m r : string) :
  exists span, NlpService.upto_last c (m ++ String c r) = Some span.
Proof.
  induction m as [|x m IH].
  - change (EmptyString ++ String c r) with (String c r). simpl.
    destruct (NlpService.upto_last c r); [eauto|].
    rewrite Ascii.eqb_refl. eauto.
  - rewrite append_cons. simpl. destruct IH as [span ->]. eauto.
Qed.

(** X1.  When the reply has a brace span, the span starts at the first
    opening brace of the reply and ends at its last closing brace:
    nothing before it holds an opening brace and nothing after it a
    closing one. *)
Theorem json_span_runs_first_to_last (text span : string) :
  NlpService.jsonMatch text = Some span ->
  exists before body after,
    text = before ++ span ++ after
    /\ span = String "{" (body ++ "}")
    /\ mentions "{" before = false
    /\ mentions "}" after = false.
Proof.
  intros H. destruct (jsonMatch_span text span H) as (b & m & a & E & S & Mb & Ma).
  exists b, m, a. auto.
Qed.

(** X2.  A reply has a brace span exactly when it holds an opening brace
    with a closing brace somewhere after it. *)
Theorem json_span_exists_iff (text : string) :
  (exists span, NlpService.jsonMatch text = Some span)
  <-> exists a b c, text = a ++ "{" ++ b ++ "}" ++ c.
Proof.
  split.
  - intros [span H].
    destruct (jsonMatch_span text span H) as (before & body & after & -> & -> & _).
    exists before, body, after.
    rewrite append_cons. change ("{" ++ body ++ "}" ++ after)
      with (String "{" (body ++ String "}" after)).
    now rewrite append_assoc.
  - intros (a & b & c & ->). unfold NlpService.jsonMatch.
    change ("{" ++ b ++ "}" ++ c) with (String "{" (b ++ String "}" c)).
    destruct (from_first_append "{" a (b ++ String "}" c)) as [m ->].
    rewrite <- append_assoc, <- append_cons.
    apply upto_last_append.
Qed.

(** ** The structured report *)

Lemma filter_Boolean_In (l : string) (lines : list string) :
  In l (NlpService.filter_Boolean lines) <-> In l lines /\ l <> "".
Proof.
  unfold NlpService.filter_Boolean. rewrite filter_In.
  destruct (String.eqb_spec l ""); simpl; intuition congruence.
Qed.

Lemma prefixed_nonempty (c : ascii) (p s : string) : String c p ++ s <> "".
Proof. rewrite append_cons. discriminate. Qed.

Lemma map_lines_not_array (prefix : string) (v : value) {rt : Runtime} :
  is_array v = false -> exists e, NlpService.map_lines prefix v = Throw e.
Proof. destruct v; simpl; try discriminate; eauto. Qed.

Section ReportProperties.
Context {rt : Runtime}.
Import NlpService.

(** X3.  On an object whose two lists are arrays and whose printed
    properties are printable, the report is the lines of the template
    joined by newlines, with no empty line among them: the blank
    separators of the template are dropped.  Every tip and every warning
    sign has its line, and the block NEXT STEPS is among the lines exactly
    when the severity score is greater than 1. *)
Theorem analysis_report_lines
        (props : list (string * value)) (tips signs : list value) :
  own_property "first_aid_tips" props = Some (VArr tips) ->
  own_property "warning_signs" props = Some (VArr signs) ->
  prints props = true ->
  exists lines,
    formatSymptomAnalysis (VObj props) = Normal (String.concat nl lines)
    /\ Forall (fun l => l <> "") lines
    /\ (forall x, In x tips ->
          exists s, toString x = Normal s /\ In ("   ✓ " ++ s) lines)
    /\ (forall x, In x signs ->
          exists s, toString x = Normal s /\ In ("   🚨 " ++ s) lines)
    /\ (In next_steps lines
        <-> js_gt (field props "severity_score") 1 = Normal true).
Proof.
  intros T S Pr.
  assert (Pt : forallb printable tips = true).
  { change (printable (VArr tips) = true).
    replace (VArr tips) with (field props "first_aid_tips")
      by (unfold field; now rewrite T).
    apply prints_field; [exact Pr|cbn [printed_fields In]; auto 12]. }
  assert (Ps : forallb printable signs = true).
  { change (printable (VArr signs) = true).
    replace (VArr signs) with (field props "warning_signs")
      by (unfold field; now rewrite S).
    apply prints_field; [exact Pr|cbn [printed_fields In]; auto 12]. }
  destruct (formatSymptomAnalysis_report props tips signs T S Pr)
    as (severityEmoji & urgencyColor & score_text & urgency_text & assessment_text
        & tip_lines & sign_lines & help_text & action_text & more_than_one
        & disclaimer_text & _ & _ & Et & Es & Eg & F).
  eexists. split; [exact F|]. repeat apply conj.
  - apply List.Forall_forall. intros l H. now apply filter_Boolean_In in H.
  - intros x H.
    destruct (toString_printable x (proj1 (forallb_forall _ _) Pt x H)) as [s Ex].
    exists s. split; [exact Ex|].
    apply filter_Boolean_In. split; [|apply prefixed_nonempty].
    apply in_or_app. right. apply in_or_app. left.
    exact (map_lines_In _ _ _ Et x s H Ex).
  - intros x H.
    destruct (toString_printable x (proj1 (forallb_forall _ _) Ps x H)) as [s Ex].
    exists s. split; [exact Ex|].
    apply filter_Boolean_In. split; [|apply prefixed_nonempty].
    do 3 (apply in_or_app; right). apply in_or_app. left.
    exact (map_lines_In _ _ _ Es x s H Ex).
  - intros H. apply filter_Boolean_In in H as [H _].
    rewrite Eg. destruct more_than_one; [reflexivity|].
    exfalso.
    pose proof (proj1 (List.Forall_forall _ _) (map_lines_prefixed _ _ _ Et)) as Lt.
    pose proof (proj1 (List.Forall_forall _ _) (map_lines_prefixed _ _ _ Es)) as Ls.
    repeat (apply in_app_or in H as [H|H]);
      try (apply Lt in H as [s H]; vm_compute in H; discriminate H);
      try (apply Ls in H as [s H]; vm_compute in H; discriminate H);
      repeat (destruct H as [H|H]; [vm_compute in H; discriminate H|]);
      try (vm_compute in H; discriminate H); try destruct H.
  - intros G. rewrite Eg in G. injection G as ->.
    apply filter_Boolean_In. split; [|discriminate].
    do 4 (apply in_or_app; right). simpl. tauto.
Qed.
End ReportProperties.

Lemma concat_nonempty (sep x : string) (l : list string) :
  x <> "" -> String.concat sep (x :: l) <> "".
Proof.
  intros N. destruct l as [|y l]; simpl; [exact N|].
  destruct x as [|c x]; [contradiction|apply prefixed_nonempty].
Qed.



Section ServiceAndHandler.
Context {rt : Runtime}.
Import NlpService SymptomController.

(** X4.  When the parsed object has its two lists, printable properties
    and no [severity_score], the report shows the emergency sign with the
    score 'undefined', while the severity score of the result is 0. *)
Theorem missing_score_shows_emergency
        (query text span : string) (props : list (string * value))
        (tips signs : list value) :
  jsonMatch text = Some span ->
  JSON_parse span = Normal (VObj props) ->
  own_property "first_aid_tips" props = Some (VArr tips) ->
  own_property "warning_signs" props = Some (VArr signs) ->
  prints props = true ->
  own_property "severity_score" props = None ->
  exists report urgency recommendedAction,
    queryNLPService query (Responded text)
    = Normal (result report (VNum (Fin 0)) urgency recommendedAction)
    /\ includes report "   🆘 Score: undefined/10" = true.
Proof.
  intros M P T S Pr N.
  assert (F : exists lines,
             formatSymptomAnalysis (VObj props) = Normal (String.concat nl lines)
             /\ In "   🆘 Score: undefined/10" lines).
  { destruct (formatSymptomAnalysis_report props tips signs T S Pr)
      as (severityEmoji & urgencyColor & score_text & urgency_text & assessment_text
          & tip_lines & sign_lines & help_text & action_text & more_than_one
          & disclaimer_text & Ee & Et & _ & _ & _ & F).
    unfold field in Ee, Et. rewrite N in Ee, Et.
    assert (severityEmoji = "🆘") as -> by (cbv in Ee; congruence).
    assert (score_text = "undefined") as -> by (cbv in Et; congruence).
    eexists. split; [exact F|].
    apply filter_Boolean_In. split; [|discriminate].
    apply in_or_app. left. do 4 right. left. reflexivity. }
  destruct F as (lines & F & I).
  do 3 eexists. split.
  - rewrite queryNLPService_responded.
    rewrite (parse_response_object query text span _ props M P F).
    rewrite N. reflexivity.
  - apply (includes_concat nl _ _ lines I). reflexivity.
Qed.

(** X5.  When the span parses as an object in which [first_aid_tips] or
    [warning_signs] is not an array, the formatter throws and the result
    is the fallback: severity score 5, urgency 'Same Day', whatever the
    object says. *)
Theorem fallback_unless_both_lists
        (query text span : string) (props : list (string * value)) :
  jsonMatch text = Some span ->
  JSON_parse span = Normal (VObj props) ->
  is_array (field props "first_aid_tips") = false
  \/ is_array (field props "warning_signs") = false ->
  queryNLPService query (Responded text)
  = Normal (result (formatFallbackResponse query text)
                   (VNum (Fin 5)) (VStr "Same Day") (VStr "Book an appointment soon")).
Proof.
  intros M P A.
  destruct (formatSymptomAnalysis_needs_lists props A) as [e F].
  apply (fallback_when_formatter_throws query text span (VObj props) e M P F).
Qed.



End ServiceAndHandler.

(** ** The older triage service *)

Section LegacyProperties.
Context {rt : Runtime}.
Import NlpService SymptomController.

Lemma legacy_report_nonempty (data : value) (report : string) :
  LegacyNlpService.formatSymptomAnalysis data = Normal report -> report <> "".
Proof.
  unfold LegacyNlpService.formatSymptomAnalysis.
  repeat match goal with
         | |- bind ?c _ = Normal _ -> _ =>
             destruct c; cbn [bind]; [|discriminate]
         end.
  intros H.
  match type of H with
  | Normal (String.concat nl (List.app (?x :: ?l) ?m)) = Normal _ =>
      assert (E : report = String.concat nl (List.app (x :: l) m)) by congruence;
      rewrite E; change (List.app (x :: l) m) with (x :: List.app l m)
  end.
  apply concat_nonempty. discriminate.
Qed.

Lemma legacy_responded (query text : string) :
  LegacyNlpService.queryNLPService query (Responded text)
  = Normal (match LegacyNlpService.parse_response query text with
            | Normal r => r
            | Throw _ => VStr (formatFallbackResponse query text)
            end).
Proof.
  unfold LegacyNlpService.queryNLPService. simpl.
  destruct (LegacyNlpService.parse_response query text); reflexivity.
Qed.

Lemma legacy_returns_string (query : string) (service : ServiceOutcome) :
  exists report,
    LegacyNlpService.queryNLPService query service = Normal (VStr report)
    /\ report <> "".
Proof.
  destruct service as [text|error].
  - rewrite legacy_responded. unfold LegacyNlpService.parse_response.
    destruct (jsonMatch text) as [span|].
    + destruct (JSON_parse span) as [jsonData|e]; cbn [bind].
      * destruct (LegacyNlpService.formatSymptomAnalysis jsonData) as [r|e] eqn:F;
          cbn [bind].
        -- exists r. split; [reflexivity|].
           now apply (legacy_report_nonempty jsonData).
        -- eexists. split; [reflexivity|discriminate].
      * eexists. split; [reflexivity|discriminate].
    + eexists. split; [reflexivity|discriminate].
  - eexists. split; [reflexivity|discriminate].
Qed.

Lemma legacy_no_valid_json (query text : string) :
  no_valid_json text ->
  LegacyNlpService.queryNLPService query (Responded text)
  = Normal (VStr (formatFallbackResponse query text)).
Proof.
  intros H. rewrite legacy_responded. unfold LegacyNlpService.parse_response.
  destruct H as [M|(span & e & M & P)]; rewrite M; [reflexivity|].
  rewrite P. reflexivity.
Qed.

(** X7.  The older [queryNLPService] never raises and always returns a
    string that is not empty: the error report with the classified
    message when the service failed, the fallback report when the reply
    holds no valid JSON. *)
Theorem legacy_service_returns_a_report (query : string) (service : ServiceOutcome) :
  exists report,
    LegacyNlpService.queryNLPService query service = Normal (VStr report)
    /\ report <> ""
    /\ (forall error, service = Failed error ->
          report = formatErrorResponse query (errorMessage_of error))
    /\ (forall text, service = Responded text -> no_valid_json text ->
          report = formatFallbackResponse query text).
Proof.
  destruct (legacy_returns_string query service) as (report & E & N).
  exists report. repeat apply conj; try assumption.
  - intros error ->.
    change (LegacyNlpService.queryNLPService query (Failed error))
      with (Normal (VStr (formatErrorResponse query (errorMessage_of error)))) in E.
    congruence.
  - intros text -> H. rewrite (legacy_no_valid_json query text H) in E. congruence.
Qed.


Lemma legacy_formatter_needs_lists (props : list (string * value)) :
  is_array (field props "possible_conditions") = false
  \/ is_array (field props "immediate_actions") = false
  \/ is_array (field props "self_care_tips") = false
  \/ is_array (field props "warning_signs") = false ->
  exists e, LegacyNlpService.formatSymptomAnalysis (VObj props) = Throw e.
Proof.
  intros A. unfold LegacyNlpService.formatSymptomAnalysis.
  rewrite !Get_object. cbn [bind].
  fold (field props "possible_conditions") (field props "immediate_actions")
       (field props "self_care_tips") (field props "warning_signs").
  destruct A as [A|[A|[A|A]]].
  - destruct (field props "possible_conditions"); try discriminate A;
      formatter_throws.
  - destruct (field props "immediate_actions"); try discriminate A;
      formatter_throws.
  - destruct (field props "self_care_tips"); try discriminate A;
      formatter_throws.
  - destruct (field props "warning_signs"); try discriminate A;
      formatter_throws.
Qed.

(** X9.  The older formatter needs four lists.  When the span parses as
    an object in which [possible_conditions], [immediate_actions],
    [self_care_tips] or [warning_signs] is not an array, the older
    service returns the fallback report. *)
Theorem legacy_fallback_unless_four_lists
        (query text span : string) (props : list (string * value)) :
  jsonMatch text = Some span ->
  JSON_parse span = Normal (VObj props) ->
  is_array (field props "possible_conditions") = false
  \/ is_array (field props "immediate_actions") = false
  \/ is_array (field props "self_care_tips") = false
  \/ is_array (field props "warning_signs") = false ->
  LegacyNlpService.queryNLPService query (Responded text)
  = Normal (VStr (formatFallbackResponse query text)).
Proof.
  intros M P A. rewrite legacy_responded.
  unfold LegacyNlpService.parse_response. rewrite M, P. cbn [bind].
  destruct (legacy_formatter_needs_lists props A) as [e ->]. reflexivity.
Qed.

Lemma checkSymptoms_ok_on_defined (v : value) :
  defined v -> exists b, respond (Normal v) = {| status_code := 200; body := b |}.
Proof.
  intros D. unfold respond. cbn [bind].
  destruct (Get_defined v "formattedMessage" D) as [x1 ->].
  destruct (Get_defined v "message" D) as [x2 ->].
  destruct (Get_defined v "severityScore" D) as [x3 ->].
  destruct (Get_defined v "urgency" D) as [x4 ->].
  destruct (Get_defined v "recommendedAction" D) as [x5 ->].
  cbn [bind]. eauto.
Qed.

(** X10.  The handler answers 200 exactly when the service resolved to a
    value that is neither [undefined] nor [null], and 500 otherwise, with
    the message of the error as the body's [error]: the message the service
    rejected with, or that of the TypeError of reading a property of
    [undefined] or [null]. *)
Theorem checkSymptoms_status (outcome : completion value) :
  (status_code (respond outcome) = 200%Z
   <-> exists v, outcome = Normal v /\ defined v)
  /\ (status_code (respond outcome) = 200%Z \/ status_code (respond outcome) = 500%Z)
  /\ (forall e, outcome = Throw e ->
        respond outcome
        = {| status_code := 500;
             body := VObj [ ("error", match exn_message e with
                                     | Some m => VStr m
                                     | None => VUndefined
                                     end) ] |})
  /\ (forall v, outcome = Normal v -> ~ defined v ->
        exists m, respond outcome
                  = {| status_code := 500; body := VObj [ ("error", VStr m) ] |}).
Proof.
  assert (D : forall v, defined v -> status_code (respond (Normal v)) = 200%Z).
  { intros v Dv.
    destruct (checkSymptoms_ok_on_defined v Dv) as [b ->]. reflexivity. }
  split; [|split; [|split]].
  - split.
    + destruct outcome as [v|e]; [|discriminate].
      intros H. exists v. split; [reflexivity|].
      destruct v; try (split; discriminate); discriminate H.
    + intros (v & -> & Dv). now apply D.
  - destruct outcome as [v|e]; [|now right].
    destruct v; try (left; apply D; split; discriminate); now right.
  - intros e ->. reflexivity.
  - intros v -> N. destruct v; try (exfalso; apply N; split; discriminate);
      eexists; reflexivity.
Qed.
End LegacyProperties.

(** ** Stored appointments *)

Section StoredAppointments.
Import AppointmentModel.

Lemma member_In (x : string) (l : list string) : member x l = true -> In x l.
Proof.
  unfold member. intros H. apply existsb_exists in H as (y & I & E).
  apply String.eqb_eq in E. now subst.
Qed.

Lemma required_string_ok (path : string) (v : option string) :
  required_string path v = [] -> exists s, v = Some s /\ s <> "".
Proof.
  unfold required_string. destruct v as [s|]; [|discriminate].
  destruct (String.eqb_spec s ""); [discriminate|]. eauto.
Qed.

(** What the validators of the schema guarantee of a document. *)
Lemma valid_document (doc : Appointment) :
  validate doc = [] ->
  (exists a b c d e f,
      doctorMedicalId doc = Some a /\ a <> ""
      /\ patientMedicalId doc = Some b /\ b <> ""
      /\ doctorName doc = Some c /\ c <> ""
      /\ patientName doc = Some d /\ d <> ""
      /\ time doc = Some e /\ e <> ""
      /\ symptoms doc = Some f /\ f <> "")
  /\ date doc <> None
  /\ (forall score, urgencyScore doc = Some score -> (0 <= score /\ score <= 10)%Q)
  /\ (forall level, urgencyLevel doc = Some level -> In level urgencyLevel_enum)
  /\ (forall st, status doc = Some st -> In st status_enum)
  /\ urgency_gated doc.
Proof.
  intros V. apply validate_nil in V as (B & L & A).
  unfold validate_before in B. cbn [List.concat] in B.
  repeat (apply List.app_eq_nil in B as [?H B]).
  unfold validate_after in A. apply List.app_eq_nil in A as [Sc St].
  repeat apply conj.
  - repeat match goal with
           | H : required_string _ _ = [] |- _ =>
               apply required_string_ok in H as (? & ? & ?)
           end.
    do 6 eexists. repeat split; eassumption.
  - destruct (date doc); [discriminate|]. discriminate.
  - intros score E. unfold validate_urgencyScore in Sc. rewrite E in Sc.
    destruct (Qle_bool urgencyScore_min score) eqn:Lo; [|discriminate].
    destruct (Qle_bool score urgencyScore_max) eqn:Hi; [|discriminate].
    split; now apply Qle_bool_iff.
  - intros level E. unfold validate_urgencyLevel in L. rewrite E in L.
    destruct (member level urgencyLevel_enum) eqn:M; [|discriminate].
    now apply member_In.
  - intros st E. unfold validate_status in St. rewrite E in St.
    destruct (member st status_enum) eqn:M; [|discriminate].
    now apply member_In.
  - intros level E NR. unfold validate_urgencyLevel, urgencyLevel_validator in L.
    rewrite E in L.
    destruct (member level urgencyLevel_enum); [|discriminate].
    unfold this_fromSymptomChecker in L.
    destruct (String.eqb_spec level "Routine"); [contradiction|].
    destruct (fromSymptomChecker doc) as [[|]|]; [reflexivity|discriminate..].
Qed.

Lemma write_Saved (collection c' : gmap nat Appointment) (w : Write)
      (id : nat) (doc : Appointment) :
  write collection w = (c', Saved id doc) ->
  validate doc = [] /\ c' = <[id := doc]> collection
  /\ proposed collection w = Some (id, doc).
Proof.
  unfold write. destruct (proposed collection w) as [[id' doc']|]; [|discriminate].
  intros H. apply save_Saved in H as (V & -> & -> & ->). auto.
Qed.

(** X11.  A record that a write stores can be read back under its
    identity, has every required field present and not empty, an urgency
    score between 0 and 10, an urgency level and a status of the schema's
    enums, and an urgency level other than 'Routine' only with
    [fromSymptomChecker] true; a record that is created has its urgency
    level, urgency score, flag and status set. *)
Theorem stored_appointment_shape
        (collection c' : gmap nat Appointment) (w : Write)
        (id : nat) (doc : Appointment) :
  write collection w = (c', Saved id doc) ->
  c' !! id = Some doc
  /\ (exists a b c d e f,
        doctorMedicalId doc = Some a /\ a <> ""
        /\ patientMedicalId doc = Some b /\ b <> ""
        /\ doctorName doc = Some c /\ c <> ""
        /\ patientName doc = Some d /\ d <> ""
        /\ time doc = Some e /\ e <> ""
        /\ symptoms doc = Some f /\ f <> "")
  /\ date doc <> None
  /\ (forall score, urgencyScore doc = Some score -> (0 <= score /\ score <= 10)%Q)
  /\ (forall level, urgencyLevel doc = Some level -> In level urgencyLevel_enum)
  /\ (forall st, status doc = Some st -> In st status_enum)
  /\ urgency_gated doc
  /\ (forall fields, w = Create fields ->
        urgencyLevel doc <> None /\ urgencyScore doc <> None
        /\ fromSymptomChecker doc <> None /\ status doc <> None).
Proof.
  intros W. apply write_Saved in W as (V & -> & P).
  split; [apply lookup_insert_eq|].
  destruct (valid_document doc V) as (R & D & Sc & L & St & G).
  repeat (split; [assumption|]).
  intros fields ->. injection P as _ <-. simpl.
  destruct (urgencyLevel fields), (urgencyScore fields),
    (fromSymptomChecker fields), (status fields); repeat split; discriminate.
Qed.

Lemma write_keeps_valid (collection : gmap nat Appointment) (w : Write) :
  (forall id doc, collection !! id = Some doc -> validate doc = []) ->
  forall id doc, fst (write collection w) !! id = Some doc -> validate doc = [].
Proof.
  intros Inv id doc. unfold write.
  destruct (proposed collection w) as [[id' doc']|]; [|apply Inv].
  unfold save. destruct (validate doc') eqn:V; [|apply Inv].
  simpl. destruct (decide (id' = id)) as [->|N].
  - rewrite lookup_insert_eq. now intros [= <-].
  - rewrite lookup_insert_ne by exact N. apply Inv.
Qed.

(** X12.  The urgency invariant holds of the whole collection at all
    times: after any sequence of writes to a collection of valid records,
    every record is valid, and a record whose urgency level is not
    'Routine' has [fromSymptomChecker] true. *)
Theorem collection_stays_gated
        (collection : gmap nat Appointment) (ws : list Write) :
  (forall id doc, collection !! id = Some doc -> validate doc = []) ->
  forall id doc,
    after_writes collection ws !! id = Some doc ->
    validate doc = [] /\ urgency_gated doc.
Proof.
  revert collection. induction ws as [|w ws IH]; intros collection Inv id doc H.
  - simpl in H. split; [now apply (Inv id)|].
    now apply valid_document, (Inv id).
  - simpl in H. apply (IH _ (write_keeps_valid collection w Inv) id doc H).
Qed.
End StoredAppointments.

(** ** The table of status changes *)

Section StatusTable.
Import StatusWorkflow.

Lemma change_of_status (collection : gmap nat Appointment) (id : nat)
      (stored this : Appointment) :
  collection !! id = Some stored ->
  previousStatus this = Some (status stored) ->
  status this <> status stored ->
  save collection id this
  = match transitions_from (status stored) appointmentStateMachine with
    | None =>
        (collection,
         Throw (TypeError "Cannot read properties of undefined (reading 'includes')"))
    | Some validTransitions =>
        if array_includes validTransitions (status this)
        then (<[id := this]> collection, Normal tt)
        else (collection, Throw (ErrorObject (Some "Invalid status transition")))
    end.
Proof.
  intros L P N. unfold save, isModified_status, pre_save. rewrite L, P.
  destruct (String.eqb_spec (status stored) (status this)) as [E|_];
    [symmetry in E; contradiction|].
  cbn [negb].
  destruct (transitions_from (status stored) appointmentStateMachine) as [v|];
    [|reflexivity].
  destruct (array_includes v (status this)); reflexivity.
Qed.

(** X13.  With [previousStatus] holding the status of the stored record,
    a change of status is saved exactly for pending to approved, pending to
    rejected, approved to completed, approved to cancelled and rejected to
    pending.  Any other change from pending, approved, rejected or
    completed fails with 'Invalid status transition'; a change from a
    status the machine has no entry for, 'cancelled' among them, fails
    with a TypeError.  A failed save leaves the collection as it was. *)
Theorem status_change_table
        (collection : gmap nat Appointment) (id : nat) (stored this : Appointment) :
  collection !! id = Some stored ->
  previousStatus this = Some (status stored) ->
  status this <> status stored ->
  let legal := [ ("pending", "approved"); ("pending", "rejected");
                 ("approved", "completed"); ("approved", "cancelled");
                 ("rejected", "pending") ] in
  let known := [ "pending"; "approved"; "rejected"; "completed" ] in
  (In (status stored, status this) legal ->
     save collection id this = (<[id := this]> collection, Normal tt))
  /\ (In (status stored) known -> ~ In (status stored, status this) legal ->
        save collection id this
        = (collection, Throw (ErrorObject (Some "Invalid status transition"))))
  /\ (~ In (status stored) known ->
        exists m, save collection id this = (collection, Throw (TypeError m))).
Proof.
  intros L P N legal known.
  rewrite (change_of_status collection id stored this L P N).
  subst legal known. repeat apply conj.
  - intros I. simpl in I.
    repeat (destruct I as [I|I]; [injection I as <- <-; reflexivity|]).
    destruct I.
  - intros K NI. simpl in K.
    repeat (destruct K as [K|K];
            [rewrite <- K in *; cbn;
             repeat match goal with
                    | |- context [String.eqb (status this) ?s] =>
                        destruct (String.eqb_spec (status this) s) as [E|_];
                        [exfalso; apply NI; rewrite E; simpl; tauto|]
                    end;
             reflexivity|]).
    destruct K.
  - intros NK. unfold transitions_from, appointmentStateMachine.
    repeat match goal with
           | |- context [String.eqb ?s (status stored)] =>
               destruct (String.eqb_spec s (status stored)) as [E|_];
               [exfalso; apply NK; rewrite <- E; simpl; tauto|]
           end.
    eauto.
Qed.
End StatusTable.

(** ** The booking form *)

Section BookingForm.
Import BookAppointment.

Lemma own_property_spread (key k : string) (v : value) (props : list (string * value)) :
  own_property k (spread_with key v props)
  = if key =? k then Some v else own_property k props.
Proof.
  induction props as [|[k' x] rest IH]; simpl.
  - destruct (String.eqb_spec key k); reflexivity.
  - destruct (String.eqb_spec k' key) as [->|N]; simpl.
    + destruct (String.eqb_spec key k); reflexivity.
    + rewrite IH. destruct (String.eqb_spec k' k) as [->|N'].
      * destruct (String.eqb_spec key k); [congruence|reflexivity].
      * reflexivity.
Qed.

(** No step of the form touches a property that is not one of its seven
    inputs. *)
Lemma on_step_keeps (formData : list (string * value)) (s : FormStep) (k : string) :
  ~ In k [ "doctorMedicalId"; "symptoms"; "preferredDate"; "preferredTime";
           "contactInfo"; "notificationType"; "meetingType" ] ->
  own_property k (on_step formData s) = own_property k formData.
Proof.
  intros N.
  assert (E : forall key, In key [ "doctorMedicalId"; "symptoms"; "preferredDate";
                                   "preferredTime"; "contactInfo"; "notificationType";
                                   "meetingType" ] ->
                          (key =? k) = false).
  { intros key I. destruct (String.eqb_spec key k); [subst; contradiction|reflexivity]. }
  destruct s as [e|]; [destruct e|]; simpl; unfold reset_form;
    rewrite ?own_property_spread, ?E; try reflexivity; simpl; tauto.
Qed.

Lemma after_steps_keeps (formData : list (string * value)) (steps : list FormStep)
      (k : string) :
  ~ In k [ "doctorMedicalId"; "symptoms"; "preferredDate"; "preferredTime";
           "contactInfo"; "notificationType"; "meetingType" ] ->
  own_property k (after_steps formData steps) = own_property k formData.
Proof.
  intros N. revert formData. unfold after_steps.
  induction steps as [|s steps IH]; intros formData; [reflexivity|].
  simpl. rewrite IH. now apply on_step_keeps.
Qed.

Lemma not_an_input (k : string) :
  In k [ "urgencyLevel"; "urgencyScore"; "fromSymptomChecker"; "patientMedicalId" ] ->
  ~ In k [ "doctorMedicalId"; "symptoms"; "preferredDate"; "preferredTime";
           "contactInfo"; "notificationType"; "meetingType" ].
Proof.
  simpl. intros [<-|[<-|[<-|[<-|[]]]]] H;
    repeat (destruct H as [H|H]; [discriminate H|]); exact H.
Qed.

(** X14.  Whatever the user edits, and however many submissions have
    succeeded before, the data the form submits carries the urgency level
    of [location.state], 'Routine' when that is missing or falsy, which is
    never falsy; the severity score of [location.state] as the urgency
    score, 0 when that is undefined; the medical id of the current user;
    and no property [fromSymptomChecker]. *)
Theorem submitted_urgency_is_not_editable
        (location_state userData medicalId : value) (steps : list FormStep) :
  let data :=
    appointmentData
      (after_steps (initial_formData location_state userData) steps) medicalId in
  own_property "urgencyLevel" data
  = Some (js_or (optional_Get location_state "urgencyLevel") (VStr "Routine"))
  /\ truthy (field data "urgencyLevel") = true
  /\ own_property "urgencyScore" data
     = Some (match optional_Get location_state "severityScore" with
             | VUndefined => VNum (Fin 0)
             | severityScore => severityScore
             end)
  /\ field data "urgencyScore" <> VUndefined
  /\ own_property "patientMedicalId" data = Some medicalId
  /\ own_property "fromSymptomChecker" data = None.
Proof.
  intros data. subst data. unfold appointmentData, field.
  rewrite !own_property_spread. cbn [String.eqb Ascii.eqb Bool.eqb optional_Get].
  rewrite !after_steps_keeps by (apply not_an_input; simpl; tauto).
  cbn. repeat apply conj; try reflexivity.
  - unfold js_or.
    destruct (truthy (optional_Get location_state "urgencyLevel")) eqn:T;
      [exact T|reflexivity].
  - destruct (optional_Get location_state "severityScore"); discriminate.
Qed.

(** X15.  A submission fails, with the error notice and the form data
    kept, when there is no current user or when the request is rejected;
    the request is not consulted in the first case.  It succeeds when the
    request resolves: the success notice is shown, the doctor, dates,
    symptoms and contact details are cleared, and the urgency level and
    score stay in the form. *)
Theorem submission_outcomes
        (createAppointmentRequest : list (string * value) -> completion value)
        (userData : value) (st : State) :
  (~ defined userData ->
     handleSubmit createAppointmentRequest userData st
     = {| formData := formData st;
          snackbar := {| open := true;
                         message := "Failed to book appointment. Please try again.";
                         severity := "error" |};
          loading := false |})
  /\ (forall e,
        defined userData ->
        createAppointmentRequest
          (appointmentData (formData st) (optional_Get userData "medicalId")) = Throw e ->
        handleSubmit createAppointmentRequest userData st
        = {| formData := formData st;
             snackbar := {| open := true;
                            message := "Failed to book appointment. Please try again.";
                            severity := "error" |};
             loading := false |})
  /\ (forall response,
        defined userData ->
        createAppointmentRequest
          (appointmentData (formData st) (optional_Get userData "medicalId"))
        = Normal response ->
        let st' := handleSubmit createAppointmentRequest userData st in
        snackbar st'
        = {| open := true;
             message := "Appointment request sent successfully!";
             severity := "success" |}
        /\ List.map (field (formData st'))
                    [ "doctorMedicalId"; "preferredDate"; "preferredTime";
                      "symptoms"; "contactInfo" ]
           = [ VStr ""; VStr ""; VStr ""; VStr ""; VStr "" ]
        /\ own_property "urgencyLevel" (formData st')
           = own_property "urgencyLevel" (formData st)
        /\ own_property "urgencyScore" (formData st')
           = own_property "urgencyScore" (formData st)).
Proof.
  assert (G : defined userData ->
              Get userData "medicalId" = Normal (optional_Get userData "medicalId")).
  { intros [U N]. destruct userData; try congruence; try reflexivity.
    simpl. destruct (own_property "medicalId" props); reflexivity. }
  repeat apply conj.
  - intros N. unfold handleSubmit.
    destruct userData; try (exfalso; apply N; split; discriminate); reflexivity.
  - intros e D E. unfold handleSubmit. rewrite (G D). cbn [bind]. rewrite E.
    reflexivity.
  - intros response D E st'. subst st'. unfold handleSubmit.
    rewrite (G D). cbn [bind]. rewrite E. cbn [bind formData snackbar].
    repeat apply conj; try reflexivity.
    + unfold reset_form, field. cbn [List.map].
      rewrite !own_property_spread. reflexivity.
    + apply (on_step_keeps (formData st) Submitted).
      apply not_an_input. simpl. tauto.
    + apply (on_step_keeps (formData st) Submitted).
      apply not_an_input. simpl. tauto.
Qed.
End BookingForm.

(** ** The further properties on sample inputs *)

Section FurtherInstances.
Import NlpService SymptomController Samples MoreSamples.
Existing Instance Reference.runtime.

Lemma json_span_runs_first_to_last_witness :
  jsonMatch reply = Some reply_json
  /\ exists before body after,
       reply = before ++ reply_json ++ after
       /\ reply_json = String "{" (body ++ "}")
       /\ mentions "{" before = false
       /\ mentions "}" after = false.
Proof.
  assert (M : jsonMatch reply = Some reply_json) by reflexivity.
  split; [exact M|exact (json_span_runs_first_to_last reply reply_json M)].
Defined.

Example two_objects_make_one_span :
  jsonMatch "{a} and {b}" = Some "{a} and {b}".
Proof. reflexivity. Qed.

Lemma analysis_report_lines_witness :
  own_property "first_aid_tips" reply_props = Some (VArr [VStr "Rest"; VStr "Drink water"])
  /\ own_property "warning_signs" reply_props = Some (VArr [VStr "Fever above 39"])
  /\ prints reply_props = true
  /\ exists lines,
       formatSymptomAnalysis (VObj reply_props) = Normal (String.concat nl lines)
       /\ In "   ✓ Drink water" lines
       /\ In "   🚨 Fever above 39" lines
       /\ In next_steps lines.
Proof.
  split; [reflexivity|split; [reflexivity|split; [reflexivity|]]].
  destruct (analysis_report_lines reply_props
              [VStr "Rest"; VStr "Drink water"] [VStr "Fever above 39"]
              eq_refl eq_refl eq_refl) as (lines & F & _ & T & S & N).
  exists lines. split; [exact F|]. split; [|split].
  - destruct (T (VStr "Drink water")) as (s & Es & I); [simpl; tauto|].
    injection Es as <-. exact I.
  - destruct (S (VStr "Fever above 39")) as (s & Es & I); [simpl; tauto|].
    injection Es as <-. exact I.
  - apply N. reflexivity.
Defined.

Lemma missing_score_shows_emergency_witness :
  jsonMatch reply_without_score = Some reply_without_score
  /\ JSON_parse reply_without_score = Normal (VObj props_without_score)
  /\ prints props_without_score = true
  /\ own_property "severity_score" props_without_score = None
  /\ exists report urgency recommendedAction,
       queryNLPService "fever" (Responded reply_without_score)
       = Normal (result report (VNum (Fin 0)) urgency recommendedAction)
       /\ includes report "   🆘 Score: undefined/10" = true.
Proof.
  assert (M : jsonMatch reply_without_score = Some reply_without_score) by reflexivity.
  assert (P : JSON_parse reply_without_score = Normal (VObj props_without_score))
    by (vm_compute; reflexivity).
  split; [exact M|split; [exact P|split; [reflexivity|split; [reflexivity|]]]].
  exact (missing_score_shows_emergency "fever" reply_without_score reply_without_score
           props_without_score [VStr "Rest"] [] M P eq_refl eq_refl eq_refl eq_refl).
Defined.

(** An object with a property named [toString] in place of the
    assessment text: the template literal throws on it, and the result is
    the fallback, the severity score 7 of the reply notwithstanding. *)
Example unprintable_assessment_falls_back :
  jsonMatch reply_unprintable = Some reply_unprintable
  /\ JSON_parse reply_unprintable = Normal (VObj props_unprintable)
  /\ prints props_unprintable = false
  /\ toString (field props_unprintable "primary_assessment")
     = Throw (TypeError "Cannot convert object to primitive value")
  /\ queryNLPService "fever" (Responded reply_unprintable)
     = Normal (result (formatFallbackResponse "fever" reply_unprintable)
                      (VNum (Fin 5)) (VStr "Same Day") (VStr "Book an appointment soon")).
Proof. repeat split; vm_compute; reflexivity. Qed.

Lemma fallback_unless_both_lists_witness :
  jsonMatch reply_score_only = Some reply_score_only
  /\ JSON_parse reply_score_only = Normal (VObj [("severity_score", VNum (Fin 7))])
  /\ is_array (field [("severity_score", VNum (Fin 7))] "first_aid_tips") = false
  /\ queryNLPService "fever" (Responded reply_score_only)
     = Normal (result (formatFallbackResponse "fever" reply_score_only)
                      (VNum (Fin 5)) (VStr "Same Day") (VStr "Book an appointment soon")).
Proof.
  assert (M : jsonMatch reply_score_only = Some reply_score_only) by reflexivity.
  assert (P : JSON_parse reply_score_only
              = Normal (VObj [("severity_score", VNum (Fin 7))]))
    by (vm_compute; reflexivity).
  split; [exact M|split; [exact P|split; [reflexivity|]]].
  exact (fallback_unless_both_lists "fever" reply_score_only reply_score_only
           [("severity_score", VNum (Fin 7))] M P (or_introl eq_refl)).
Defined.

(** A reply in the shape the structured service asks for has none of the
    lists of the older one. *)
Lemma legacy_fallback_unless_four_lists_witness :
  jsonMatch reply = Some reply_json
  /\ JSON_parse reply_json = Normal (VObj reply_props)
  /\ is_array (field reply_props "possible_conditions") = false
  /\ LegacyNlpService.queryNLPService "fever" (Responded reply)
     = Normal (VStr (formatFallbackResponse "fever" reply)).
Proof.
  assert (M : jsonMatch reply = Some reply_json) by reflexivity.
  assert (P : JSON_parse reply_json = Normal (VObj reply_props))
    by (vm_compute; reflexivity).
  split; [exact M|split; [exact P|split; [reflexivity|]]].
  exact (legacy_fallback_unless_four_lists "fever" reply reply_json reply_props
           M P (or_introl eq_refl)).
Defined.

Example checkSymptoms_on_rejection :
  respond (Throw (ErrorObject (Some "boom")))
  = {| status_code := 500; body := VObj [ ("error", VStr "boom") ] |}.
Proof. reflexivity. Qed.
End FurtherInstances.

Section FurtherAppointmentInstances.
Import AppointmentModel Samples MoreSamples.

Lemma stored_appointment_shape_witness :
  write ∅ (Create (booking (Some "Emergency") (Some 9%Q) (Some true)))
  = (<[0%nat := new_document (booking (Some "Emergency") (Some 9%Q) (Some true))]> ∅,
     Saved 0%nat (new_document (booking (Some "Emergency") (Some 9%Q) (Some true))))
  /\ (<[0%nat := new_document (booking (Some "Emergency") (Some 9%Q) (Some true))]> ∅
      : gmap nat Appointment) !! 0%nat
     = Some (new_document (booking (Some "Emergency") (Some 9%Q) (Some true)))
  /\ urgency_gated (new_document (booking (Some "Emergency") (Some 9%Q) (Some true))).
Proof.
  assert (W : write ∅ (Create (booking (Some "Emergency") (Some 9%Q) (Some true)))
              = (<[0%nat := new_document (booking (Some "Emergency") (Some 9%Q) (Some true))]> ∅,
                 Saved 0%nat (new_document (booking (Some "Emergency") (Some 9%Q) (Some true)))))
    by reflexivity.
  split; [exact W|].
  destruct (stored_appointment_shape _ _ _ _ _ W) as (L & _ & _ & _ & _ & _ & G & _).
  split; [exact L|exact G].
Defined.

Lemma collection_stays_gated_witness :
  (forall id doc, (∅ : gmap nat Appointment) !! id = Some doc -> validate doc = [])
  /\ forall id doc,
       after_writes ∅
         [ Create (booking (Some "Urgent") (Some 7%Q) (Some true));
           Update 0%nat (changes "Emergency" (Some false));
           Create (booking (Some "Urgent") None None);
           Create (booking None None None) ] !! id = Some doc ->
       validate doc = [] /\ urgency_gated doc.
Proof.
  assert (E : forall id doc,
             (∅ : gmap nat Appointment) !! id = Some doc -> validate doc = []).
  { intros id doc H. rewrite lookup_empty in H. discriminate H. }
  split; [exact E|].
  exact (collection_stays_gated ∅ _ E).
Defined.

Example rejected_writes_leave_no_trace :
  after_writes ∅
    [ Create (booking (Some "Urgent") (Some 7%Q) (Some true));
      Update 0%nat (changes "Emergency" (Some false));
      Create (booking (Some "Urgent") None None);
      Create (booking None None None) ]
  = <[1%nat := new_document (booking None None None)]>
      (<[0%nat := new_document (booking (Some "Urgent") (Some 7%Q) (Some true))]> ∅).
Proof. reflexivity. Qed.
End FurtherAppointmentInstances.

Section FurtherWorkflowInstances.
Import StatusWorkflow MoreSamples.

Lemma status_change_table_witness :
  (<[4%nat := pending_record]> ∅ : gmap nat Appointment) !! 4%nat = Some pending_record
  /\ save (<[4%nat := pending_record]> ∅) 4%nat approve
     = (<[4%nat := approve]> (<[4%nat := pending_record]> ∅), Normal tt)
  /\ exists m,
       save (<[4%nat := cancelled_record]> ∅) 4%nat reopen
       = (<[4%nat := cancelled_record]> ∅, Throw (TypeError m)).
Proof.
  assert (N1 : status approve <> status pending_record) by discriminate.
  assert (N2 : status reopen <> status cancelled_record) by discriminate.
  assert (L1 : (<[4%nat := pending_record]> ∅ : gmap nat Appointment) !! 4%nat
               = Some pending_record) by reflexivity.
  assert (L2 : (<[4%nat := cancelled_record]> ∅ : gmap nat Appointment) !! 4%nat
               = Some cancelled_record) by reflexivity.
  split; [exact L1|split].
  - destruct (status_change_table (<[4%nat := pending_record]> ∅) 4%nat
                pending_record approve L1 eq_refl N1) as (Legal & _ & _).
    apply Legal. simpl. tauto.
  - destruct (status_change_table (<[4%nat := cancelled_record]> ∅) 4%nat
                cancelled_record reopen L2 eq_refl N2) as (_ & _ & Unknown).
    apply Unknown. simpl. intros H.
    repeat (destruct H as [H|H]; [discriminate H|]). exact H.
Defined.
End FurtherWorkflowInstances.

Section FurtherFormInstances.
Import BookAppointment MoreSamples.

Example form_from_the_checker :
  let data :=
    appointmentData
      (after_steps (initial_formData checker_state patient)
         [ Edited (SelectDoctor (VStr "DOC001"));
           Edited (ChangeContactInfo "555-0100");
           Edited (SwitchMeetingType true) ])
      (VStr "PAT001") in
  List.map (field data) [ "doctorMedicalId"; "meetingType"; "urgencyLevel";
                          "urgencyScore"; "fromSymptomChecker" ]
  = [ VStr "DOC001"; VStr "online"; VStr "Urgent"; VNum (Fin 7); VUndefined ].
Proof. reflexivity. Qed.

Example form_without_the_checker :
  List.map (field (initial_formData VNull VNull))
           [ "patientMedicalId"; "symptoms"; "urgencyLevel"; "urgencyScore" ]
  = [ VStr ""; VStr ""; VStr "Routine"; VNum (Fin 0) ].
Proof. reflexivity. Qed.

Lemma submission_outcomes_witness :
  let st := {| formData := initial_formData checker_state patient;
               snackbar := {| open := false; message := ""; severity := "success" |};
               loading := false |} in
  defined patient
  /\ severity (snackbar (handleSubmit accepted patient st)) = "success"
  /\ field (formData (handleSubmit accepted patient st)) "symptoms" = VStr ""
  /\ field (formData (handleSubmit accepted patient st)) "urgencyLevel" = VStr "Urgent"
  /\ severity (snackbar (handleSubmit accepted VNull st)) = "error"
  /\ formData (handleSubmit accepted VNull st) = formData st.
Proof.
  intros st.
  assert (D : defined patient) by (split; discriminate).
  assert (N : ~ defined VNull) by (intros [_ H]; now apply H).
  destruct (submission_outcomes accepted patient st) as (_ & _ & Ok).
  destruct (Ok _ D eq_refl) as (S & F & L & _).
  destruct (submission_outcomes accepted VNull st) as (Fail & _ & _).
  split; [exact D|split; [|split; [|split; [|split]]]].
  - now rewrite S.
  - apply (f_equal (fun l => nth 3 l VUndefined)) in F. exact F.
  - unfold field. now rewrite L.
  - now rewrite (Fail N).
  - now rewrite (Fail N).
Defined.
End FurtherFormInstances.
